(** * OnboardingAI: the access guard, the retrieval adapter and the response
      pipeline of [assistant.py], the denial templates of [prompts.py] and the
      employee generator of [employees.py], as a shallow embedding.

    Conventions of the embedding.
    - A Python [str] is a [string] holding its UTF-8 bytes.  UTF-8 is
      self-synchronising, so [kw in s] on code points and on bytes agree; the
      one slice of the source ([employee_id[:8]]) counts code points.
    - [str.lower] and the builtin [hash] belong to the interpreter, not to the
      repository: they are the two fields of the class [PyRuntime] and every
      theorem holds for all of its instances.  [ascii_runtime] is the instance
      used to evaluate examples.
    - A Python [int] is a [Z]; [%] is [Z.modulo] (sign of the divisor).
    - Exceptions are values of [exn] (instances of Python's [Exception]);
      code that may raise lives in the monad [M] of state and errors. *)

From Stdlib Require Import String Ascii ZArith List Bool Lia.
From Stdlib Require QArith_base.
Import ListNotations.
Open Scope list_scope.
Open Scope string_scope.
Open Scope Z_scope.

(** ** Python strings *)
Module PyStr.

Definition dq : string := String (ascii_of_nat 34) EmptyString.

(** [needle in hay] *)
Fixpoint str_in (needle hay : string) : bool :=
  if String.prefix needle hay then true
  else match hay with
       | EmptyString => false
       | String _ rest => str_in needle rest
       end.

(** The relation [str_in] decides. *)
Definition is_substring (needle hay : string) : Prop :=
  exists pre post, hay = pre ++ needle ++ post.

(** [x in xs] for a list of strings *)
Definition str_mem (x : string) (xs : list string) : bool :=
  existsb (String.eqb x) xs.

(** [str.lower] restricted to the ASCII letters; bytes above 127 are kept. *)
Definition lower_ascii (c : ascii) : ascii :=
  let n := N_of_ascii c in
  if ((65 <=? n) && (n <=? 90))%N then ascii_of_N (n + 32) else c.

Fixpoint ascii_lower (s : string) : string :=
  match s with
  | EmptyString => EmptyString
  | String c rest => String (lower_ascii c) (ascii_lower rest)
  end.

(** Decimal digits of a non-negative integer, most significant first. *)
Definition digit (d : Z) : ascii := ascii_of_N (48 + Z.to_N d).

Fixpoint digits_of (fuel : nat) (n : Z) (acc : string) : string :=
  match fuel with
  | O => acc
  | S fuel' =>
      let acc' := String (digit (n mod 10)) acc in
      if (n / 10 =? 0)%Z then acc' else digits_of fuel' (n / 10) acc'
  end.

Definition str_of_nonneg (n : Z) : string :=
  digits_of (S (Z.to_nat (Z.log2 n))) n EmptyString.

(** [str(n)] and the rendering of an [int] by [str.format] and f-strings *)
Definition str_of_int (n : Z) : string :=
  if n <? 0 then "-" ++ str_of_nonneg (- n) else str_of_nonneg n.

Fixpoint zeros (k : nat) : string :=
  match k with
  | O => EmptyString
  | S k' => String "0" (zeros k')
  end.

Definition zfill (width : nat) (s : string) : string :=
  zeros (width - String.length s) ++ s.

(** The format specification [:04d]: sign first, then zeros up to width 4. *)
Definition format_04d (n : Z) : string :=
  if n <? 0 then "-" ++ zfill 3 (str_of_nonneg (- n))
  else zfill 4 (str_of_nonneg n).

Definition is_digit (c : ascii) : bool :=
  let n := N_of_ascii c in ((48 <=? n) && (n <=? 57))%N.

Fixpoint all_digits (s : string) : bool :=
  match s with
  | EmptyString => true
  | String c rest => is_digit c && all_digits rest
  end.

(** Whitespace removed by [str.strip] among the ASCII characters. *)
Definition is_space (c : ascii) : bool :=
  let n := N_of_ascii c in
  (((9 <=? n) && (n <=? 13)) || ((28 <=? n) && (n <=? 32)))%N.

Fixpoint lstrip (s : string) : string :=
  match s with
  | EmptyString => EmptyString
  | String c rest => if is_space c then lstrip rest else s
  end.

Fixpoint rstrip (s : string) : string :=
  match s with
  | EmptyString => EmptyString
  | String c rest =>
      match rstrip rest with
      | EmptyString => if is_space c then EmptyString else String c EmptyString
      | r => String c r
      end
  end.

Definition strip (s : string) : string := rstrip (lstrip s).

(** [s[:n]], counting code points over the UTF-8 bytes: a continuation byte
    (10xxxxxx) belongs to the character before it. *)
Definition is_continuation (c : ascii) : bool :=
  let n := N_of_ascii c in ((128 <=? n) && (n <=? 191))%N.

Fixpoint take_chars (n : nat) (s : string) : string :=
  match s with
  | EmptyString => EmptyString
  | String c rest =>
      if is_continuation c then String c (take_chars n rest)
      else match n with
           | O => EmptyString
           | S n' => String c (take_chars n' rest)
           end
  end.

(** [sep.join(xs)] *)
Fixpoint join (sep : string) (xs : list string) : string :=
  match xs with
  | [] => EmptyString
  | [x] => x
  | x :: rest => x ++ sep ++ join sep rest
  end.


End PyStr.
Import PyStr.

(** ** The interpreter's part: [str.lower] and [hash] *)
Class PyRuntime := {
  str_lower : string -> string;
  py_hash : string -> Z
}.

(** An instance to evaluate examples with: ASCII lowering and a polynomial
    hash.  CPython salts [hash] per process; nothing below depends on which
    function it is. *)
Definition poly_hash (s : string) : Z :=
  fold_left (fun h c => (31 * h + Z.of_N (N_of_ascii c)) mod 18446744073709551616)
            (list_ascii_of_string s) 0.

Definition ascii_runtime : PyRuntime :=
  {| str_lower := ascii_lower; py_hash := poly_hash |}.

(** ** prompts.py: the denial templates, the per-level directives and the
       location reminders *)
Module Prompts.

(** [ACCESS_DENIED_MESSAGES["scl_insufficient"].format(...)] and its three
    siblings.  A template with placeholders is a function of their values. *)
Definition scl_insufficient (required_scl scl_level : Z) (ref_id : string) : string :=
  "
**TRANSMISSION START**
---
**SECURITY ALERT**: Access Denied - Insufficient Clearance[cite: 1042].

**PROTOCOL RESPONSE**: 
Subject matter requires SCL-"
  ++ str_of_int required_scl
  ++ " authorization[cite: 1028]. 
Your current status (SCL-"
  ++ str_of_int scl_level
  ++ ") is insufficient[cite: 1043].

Required Action: Submit Form UC-401 (Clearance Elevation Request) to your Department Head.

**SECURITY COMPLIANCE NOTIFICATION**: 
Attempt logged (Ref: "
  ++ ref_id
  ++ "). Unauthorized access is punishable by Experimental Participation[cite: 1341].
---
**TRANSMISSION END**
".

Definition location_restricted (required_location current_location ref_id : string) : string :=
  "
**TRANSMISSION START**
---
**SECURITY ALERT**: Location-Based Access Restriction[cite: 1037, 1050].

**PROTOCOL RESPONSE**: 
The requested information is restricted to "
  ++ required_location
  ++ " personnel only.
Your current assignment at "
  ++ current_location
  ++ " does not grant access to this subject matter.

Required Action: Submit Form UC-502 (Cross-Facility Data Request) for inter-facility inquiries.

**SECURITY COMPLIANCE NOTIFICATION**: 
Geographic access controls enforced under Corporate Directive 12-GAMMA[cite: 1099].
Inquiry logged (Ref: "
  ++ ref_id
  ++ ").
---
**TRANSMISSION END**
".

Definition confidential_data : string :=
  "
**TRANSMISSION START**
---
**SECURITY ALERT**: Protocol OMEGA-7[cite: 1937].

**PROTOCOL RESPONSE**: 
Information classified as OMEGA-Level Confidential[cite: 448]. 
Access restricted to Payroll and Oversight Committee only[cite: 1545, 1798].

This classification applies regardless of your Security Clearance Level.

**SECURITY COMPLIANCE NOTIFICATION**: 
Inquiry logged. Do not repeat this request[cite: 1121].
Continued attempts may result in Experimental Participation assignment[cite: 1341].
---
**TRANSMISSION END**
".

Definition underground_facility : string :=
  "
**TRANSMISSION START**
---
**SECURITY ALERT**: Facility Access Restriction[cite: 1032, 1049].

**PROTOCOL RESPONSE**: 
Information regarding underground facilities is classified under Protocol Omega.
Access is restricted to Raccoon City HQ personnel with SCL-4 or higher clearance.

Your current profile does not meet these requirements.

**SECURITY COMPLIANCE NOTIFICATION**: 
This inquiry has been flagged for Oversight Committee review[cite: 1121].
Further inquiries about this topic may result in Basement Cleaning Detail (BCD) assignment[cite: 1333].
---
**TRANSMISSION END**
".

(** [SCL_SYSTEM_INSTRUCTIONS] *)
Definition scl_instruction_1 : string :=
  "
ADDITIONAL SECURITY DIRECTIVE (SCL-1 ASSET)[cite: 1028]: 
This asset has ENTRY-LEVEL clearance. Strict information control applies:
- DO NOT reveal any research project details
- DO NOT acknowledge underground facilities or containment protocols
- Redirect sensitive inquiries to: " ++ dq ++ "Please consult your supervisor for further guidance" ++ dq ++ "
- Only provide basic HR, benefits, and general policy information[cite: 1018]
".

Definition scl_instruction_2 : string :=
  "
ADDITIONAL SECURITY DIRECTIVE (SCL-2 ASSET)[cite: 1028]:
This asset has STANDARD clearance:
- May access departmental procedures and emergency protocols[cite: 1042]
- DO NOT reveal cross-departmental classified projects
- Acknowledge general safety procedures but not specific containment details
".

Definition scl_instruction_3 : string :=
  "
ADDITIONAL SECURITY DIRECTIVE (SCL-3 ASSET)[cite: 1028]:
This asset has ELEVATED clearance:
- May access research guidelines and departmental project overviews
- May acknowledge existence of special protocols without details
- Still restricted from containment-level information[cite: 1032]
".

Definition scl_instruction_4 : string :=
  "
ADDITIONAL SECURITY DIRECTIVE (SCL-4 ASSET)[cite: 1028]:
This asset has HIGH clearance:
- May access containment protocols and facility security details[cite: 1049]
- May acknowledge underground operations at HQ
- Still restricted from Board-level strategic information
".

Definition scl_instruction_5 : string :=
  "
ADDITIONAL SECURITY DIRECTIVE (SCL-5 ASSET)[cite: 1028]:
This asset has EXECUTIVE clearance:
- Full operational access granted
- May access all facility and protocol documentation
- Strategic information available upon request
- EXCEPTION: OMEGA-7 data (salary, performance) remains classified[cite: 448]
".

Definition SCL_SYSTEM_INSTRUCTIONS : list (Z * string) :=
  [ (1, scl_instruction_1); (2, scl_instruction_2); (3, scl_instruction_3);
    (4, scl_instruction_4); (5, scl_instruction_5) ].

(** [LOCATION_REMINDERS] *)
Definition reminder_hq : string :=
  "
**HQ SECURITY REMINDER**[cite: 1032]:
As a Raccoon City HQ asset, you are subject to:
- Mandatory Protocol Omega drills (quarterly)
- Continuous biometric monitoring in restricted zones
- Emergency contact: ext. 4-UMBRELLA
".

Definition reminder_europe : string :=
  "
**FACILITY SECURITY REMINDER**[cite: 1037]:
As a Umbrella Europe asset:
- Standard security protocols apply
- Inter-facility requests require Form UC-502
- Emergency contact: ext. EU-SECURE
".

Definition reminder_asia : string :=
  "
**FACILITY SECURITY REMINDER**[cite: 1037]:
As a Umbrella Asia asset:
- Standard security protocols apply
- Inter-facility requests require Form UC-502
- Emergency contact: ext. ASIA-SEC
".

Definition reminder_north_america : string :=
  "
**FACILITY SECURITY REMINDER**[cite: 1050]:
As a remote operations asset:
- Limited central database access
- Some queries may require HQ escalation
- Emergency contact: ext. NA-OPS
".

Definition reminder_south_america : string :=
  "
**FACILITY SECURITY REMINDER**[cite: 1050]:
As a remote operations asset:
- Limited central database access
- Some queries may require HQ escalation
- Emergency contact: ext. SA-OPS
".

Definition LOCATION_REMINDERS : list (string * string) :=
  [ ("Raccoon City HQ", reminder_hq);
    ("Umbrella Europe", reminder_europe);
    ("Umbrella Asia", reminder_asia);
    ("Umbrella North America", reminder_north_america);
    ("Umbrella South America", reminder_south_america) ].

End Prompts.

(** ** Dictionaries in insertion order *)
Fixpoint lookup_int {V : Type} (d : list (Z * V)) (key : Z) : option V :=
  match d with
  | [] => None
  | (k, v) :: rest => if (k =? key)%Z then Some v else lookup_int rest key
  end.

Fixpoint lookup_str {V : Type} (d : list (string * V)) (key : string) : option V :=
  match d with
  | [] => None
  | (k, v) :: rest => if String.eqb k key then Some v else lookup_str rest key
  end.

(** [d.get(key, default)] on an optional entry *)
Definition get_or {V : Type} (entry : option V) (default : V) : V :=
  match entry with
  | Some v => v
  | None => default
  end.

(** ** assistant.py: the clearance policy table [SCL_PERMISSIONS] *)
Record Permissions := {
  allowed_topics : list string;
  restricted_keywords : list string;
  max_retrieval_k : Z
}.

Definition scl_1 : Permissions :=
  {| allowed_topics := ["general_policies"; "hr_benefits"; "office_locations"];
     restricted_keywords :=
       ["outbreak"; "specimen"; "t-virus"; "g-virus"; "nemesis"; "tyrant"; "secret"; "classified"];
     max_retrieval_k := 2 |}.

Definition scl_2 : Permissions :=
  {| allowed_topics :=
       ["general_policies"; "hr_benefits"; "office_locations"; "safety_protocols";
        "emergency_procedures"];
     restricted_keywords := ["outbreak"; "specimen"; "t-virus"; "g-virus"; "nemesis"; "tyrant"];
     max_retrieval_k := 3 |}.

Definition scl_3 : Permissions :=
  {| allowed_topics :=
       ["general_policies"; "hr_benefits"; "office_locations"; "safety_protocols";
        "emergency_procedures"; "research_guidelines"];
     restricted_keywords := ["t-virus"; "g-virus"; "nemesis"; "tyrant"];
     max_retrieval_k := 4 |}.

Definition scl_4 : Permissions :=
  {| allowed_topics :=
       ["general_policies"; "hr_benefits"; "office_locations"; "safety_protocols";
        "emergency_procedures"; "research_guidelines"; "containment_protocols"];
     restricted_keywords := ["nemesis"; "tyrant"];
     max_retrieval_k := 5 |}.

Definition scl_5 : Permissions :=
  {| allowed_topics := ["*"];
     restricted_keywords := [];
     max_retrieval_k := 10 |}.

Definition SCL_PERMISSIONS : list (Z * Permissions) :=
  [ (1, scl_1); (2, scl_2); (3, scl_3); (4, scl_4); (5, scl_5) ].

(** [SCL_PERMISSIONS.get(level, SCL_PERMISSIONS[1])] *)
Definition permissions_of (level : Z) : Permissions :=
  get_or (lookup_int SCL_PERMISSIONS level) scl_1.

(** ** The employee dictionary
    The keys the assistant reads, each present or absent; [other_keys] names
    any further keys of the dictionary, whose values are never read. *)
Module Info.
Record t := {
  employee_id : option string;
  name : option string;
  lastname : option string;
  position : option string;
  department : option string;
  clearance_level : option Z;
  location : option string;
  location_security_level : option string;
  has_facility_access : option bool;
  hire_date : option string;
  supervisor : option string;
  other_keys : list string
}.

(** [{}] *)
Definition empty : t :=
  {| employee_id := None; name := None; lastname := None; position := None;
     department := None; clearance_level := None; location := None;
     location_security_level := None; has_facility_access := None;
     hire_date := None; supervisor := None; other_keys := [] |}.

Definition is_some {A : Type} (o : option A) : bool :=
  match o with Some _ => true | None => false end.

(** Truth value of the dictionary: false exactly when it has no key. *)
Definition truthy (d : t) : bool :=
  is_some (employee_id d) || is_some (name d) || is_some (lastname d)
  || is_some (position d) || is_some (department d) || is_some (clearance_level d)
  || is_some (location d) || is_some (location_security_level d)
  || is_some (has_facility_access d) || is_some (hire_date d)
  || is_some (supervisor d)
  || match other_keys d with [] => false | _ => true end.

(** [employee_info or {}], the argument being [None] or a dictionary *)
Definition or_empty (d : option t) : t :=
  match d with
  | Some d' => if truthy d' then d' else empty
  | None => empty
  end.
End Info.

(** ** assistant.py: class [SecurityGuardrails] *)
Module SecurityGuardrails.

Definition CONFIDENTIAL_KEYWORDS : list string :=
  ["salary"; "maaş"; "performance"; "performans"; "evaluation"; "değerlendirme";
   "compensation"; "ücret"].

Definition FACILITY_KEYWORDS : list string :=
  ["underground"; "yeraltı"; "sub-level"; "basement"; "bodrum"; "gizli tesis"].

(** The attributes set by [__init__]. *)
Record t := {
  employee_info : Info.t;
  scl_level : Z;
  location : string;
  location_security : string;
  has_facility_access : bool;
  permissions : Permissions
}.

Definition init (employee_info : option Info.t) : t :=
  let info := Info.or_empty employee_info in
  let level := get_or (Info.clearance_level info) 1 in
  {| employee_info := info;
     scl_level := level;
     location := get_or (Info.location info) "Unknown";
     location_security := get_or (Info.location_security_level info) "GAMMA";
     has_facility_access := get_or (Info.has_facility_access info) false;
     permissions := permissions_of level |}.

Section WithRuntime.
Context {RT : PyRuntime}.

Definition _generate_ref_id (seed : string) : string :=
  format_04d (py_hash seed mod 10000).

Definition _generate_confidential_denial (self : t) : string :=
  Prompts.confidential_data.

Definition _generate_facility_denial (self : t) : string :=
  Prompts.underground_facility.

(** The loop over [SCL_PERMISSIONS.items()]: the first level whose list lacks
    the keyword, [required_scl] when the loop ends without a [break]. *)
Fixpoint required_scl_loop (items : list (Z * Permissions))
    (triggered_keyword : string) (required_scl : Z) : Z :=
  match items with
  | [] => required_scl
  | (scl, perms) :: rest =>
      if negb (str_mem triggered_keyword (restricted_keywords perms)) then scl
      else required_scl_loop rest triggered_keyword required_scl
  end.

Definition required_scl_of (triggered_keyword : string) : Z :=
  required_scl_loop SCL_PERMISSIONS triggered_keyword 5.

Definition _generate_scl_denial (self : t) (triggered_keyword : string) : string :=
  Prompts.scl_insufficient
    (required_scl_of triggered_keyword)
    (scl_level self)
    ("SCL-" ++ _generate_ref_id triggered_keyword).

Definition _generate_location_denial (self : t) : string :=
  Prompts.location_restricted
    "Raccoon City HQ"
    (location self)
    ("LOC-" ++ _generate_ref_id (location self)).

(** [for keyword in keywords: if keyword in text: return ...]: the keyword
    the loop returns at, if any. *)
Definition first_keyword_in (keywords : list string) (text : string) : option string :=
  find (fun keyword => str_in keyword text) keywords.

(** [any(kw in text for kw in keywords)] *)
Definition any_keyword_in (keywords : list string) (text : string) : bool :=
  existsb (fun kw => str_in kw text) keywords.

Definition check_query_permission (self : t) (query : string) : bool * string :=
  let query_lower := str_lower query in
  match first_keyword_in CONFIDENTIAL_KEYWORDS query_lower with
  | Some _ => (false, _generate_confidential_denial self)
  | None =>
      if any_keyword_in FACILITY_KEYWORDS query_lower
         && negb (has_facility_access self)
      then (false, _generate_facility_denial self)
      else
        match first_keyword_in (restricted_keywords (permissions self)) query_lower with
        | Some keyword => (false, _generate_scl_denial self keyword)
        | None => (true, EmptyString)
        end
  end.

Definition get_retrieval_k (self : t) : Z :=
  max_retrieval_k (permissions self).

Definition get_dynamic_system_instruction (self : t) : string :=
  let scl_instruction :=
    get_or (lookup_int Prompts.SCL_SYSTEM_INSTRUCTIONS (scl_level self))
           Prompts.scl_instruction_1 in
  let location_reminder :=
    get_or (lookup_str Prompts.LOCATION_REMINDERS (location self)) EmptyString in
  scl_instruction ++ location_reminder.

End WithRuntime.
End SecurityGuardrails.

(** ** Exceptions, the message table and the monad of the pipeline *)
Inductive exn := Exception (message : string).

Inductive result (A : Type) :=
| Ok (value : A)
| Raise (e : exn).
Arguments Ok {A} value.
Arguments Raise {A} e.

(** A row of the sqlite table [message_history]; the list order is [id]. *)
Record Row := {
  row_session_id : string;
  row_role : string;
  row_content : string
}.

(** The database file.  [faults] says, for the sqlite operations to come,
    which ones raise [sqlite3.Error] ([true]); past its end they succeed. *)
Record Db := {
  rows : list Row;
  faults : list bool
}.

(** LangChain documents and messages. *)
Record Document := {
  page_content : string;
  metadata_source : option string
}.

Inductive LcMessage :=
| HumanMessage (content : string)
| AIMessage (content : string).

(** Calls made to the collaborators handed to the assistant. *)
Inductive Call :=
| CallRetriever (query : string) (k : Z) (score_threshold : QArith_base.Q)
| CallSystemPromptFormat (employee_information retrieved_policy_information : string)
| CallChain (system : string) (chat_history : list LcMessage) (input : string).

Record World := {
  db : Db;
  calls : list Call
}.

Definition M (A : Type) : Type := World -> result A * World.

Definition ret {A : Type} (a : A) : M A := fun w => (Ok a, w).

Definition bind {A B : Type} (c : M A) (k : A -> M B) : M B :=
  fun w =>
    match c w with
    | (Ok a, w') => k a w'
    | (Raise e, w') => (Raise e, w')
    end.

Notation "x <- c ;; k" := (bind c (fun x => k))
  (at level 61, c at next level, right associativity).
Notation "c ;; k" := (bind c (fun _ => k))
  (at level 61, right associativity).

(** [try: body / except Exception as e: handler e]; what [body] did to the
    world before it raised stays done. *)
Definition try_except {A : Type} (body : M A) (handler : exn -> M A) : M A :=
  fun w =>
    match body w with
    | (Ok a, w') => (Ok a, w')
    | (Raise e, w') => handler e w'
    end.

(** A call to a collaborator: recorded, then its outcome. *)
Definition call {A : Type} (c : Call) (outcome : result A) : M A :=
  fun w => (outcome, {| db := db w; calls := (calls w ++ [c])%list |}).

(** ** assistant.py: class [ChatMessageHistory] *)
Module ChatMessageHistory.

Record t := {
  db_path : string;
  session_id : string
}.

(** One sqlite operation under [try / except sqlite3.Error]: [on_ok] when it
    succeeds, [on_error] after the error is logged. *)
Definition sqlite_op {A : Type} (on_ok : list Row -> A * list Row) (on_error : A) : M A :=
  fun w =>
    let d := db w in
    match faults d with
    | true :: later =>
        (Ok on_error, {| db := {| rows := rows d; faults := later |}; calls := calls w |})
    | false :: later =>
        let '(a, rs) := on_ok (rows d) in
        (Ok a, {| db := {| rows := rs; faults := later |}; calls := calls w |})
    | [] =>
        let '(a, rs) := on_ok (rows d) in
        (Ok a, {| db := {| rows := rs; faults := [] |}; calls := calls w |})
    end.

Definition add_message (self : t) (role content : string) : M unit :=
  sqlite_op
    (fun rs =>
       (tt, (rs ++ [ {| row_session_id := session_id self;
                        row_role := role;
                        row_content := content |} ])%list))
    tt.

Definition get_messages (self : t) : M (list (string * string)) :=
  sqlite_op
    (fun rs =>
       (map (fun r => (row_role r, row_content r))
            (filter (fun r => String.eqb (row_session_id r) (session_id self)) rs),
        rs))
    [].

Fixpoint to_langchain (messages : list (string * string)) : list LcMessage :=
  match messages with
  | [] => []
  | (role, content) :: rest =>
      if String.eqb role "human" then HumanMessage content :: to_langchain rest
      else if String.eqb role "ai" then AIMessage content :: to_langchain rest
      else to_langchain rest
  end.

Definition get_langchain_messages (self : t) : M (list LcMessage) :=
  messages <- get_messages self ;;
  ret (to_langchain messages).

Definition clear (self : t) : M unit :=
  sqlite_op
    (fun rs =>
       (tt, filter (fun r => negb (String.eqb (row_session_id r) (session_id self))) rs))
    tt.

End ChatMessageHistory.

(** ** assistant.py: class [OnboardingAssistant] *)
Module OnboardingAssistant.

(** [vector_store.as_retriever(search_type="similarity_score_threshold",
    search_kwargs={"k": k, "score_threshold": t}).invoke(query)]: the
    passages scoring at least [t], at most [k] of them, or an exception. *)
Record VectorStore := {
  retriever_invoke : Z -> QArith_base.Q -> string -> result (list Document)
}.

(** The attributes set by [__init__].  [system_prompt] stands for the
    template through its [format(employee_information=...,
    retrieved_policy_information=...)], which raises on a template with other
    fields; [llm] stands for the chain [prompt | llm | StrOutputParser()]
    invoked on the system text, the prior messages and the new input.  The
    tracing metadata attached to the chain call has no effect on the result
    and is left out. *)
Record t := {
  system_prompt : string -> string -> result string;
  llm : string -> list LcMessage -> string -> result string;
  vector_store : option VectorStore;
  employee_information : Info.t;
  retrieval_score_threshold : QArith_base.Q;
  security : SecurityGuardrails.t;
  chat_history : ChatMessageHistory.t
}.

Definition init
    (system_prompt : string -> string -> result string)
    (llm : string -> list LcMessage -> string -> result string)
    (vector_store : option VectorStore)
    (employee_information : option Info.t)
    (session_id db_path : string)
    (retrieval_score_threshold : QArith_base.Q) : t :=
  {| system_prompt := system_prompt;
     llm := llm;
     vector_store := vector_store;
     employee_information := Info.or_empty employee_information;
     retrieval_score_threshold := retrieval_score_threshold;
     security := SecurityGuardrails.init (Some (Info.or_empty employee_information));
     chat_history :=
       {| ChatMessageHistory.db_path := db_path;
          ChatMessageHistory.session_id := session_id |} |}.

(** The default of the constructor's [retrieval_score_threshold]. *)
Definition default_score_threshold : QArith_base.Q := QArith_base.Qmake 1 2.

Definition nl : string := String (ascii_of_nat 10) EmptyString.

Definition format_document (doc : Document) : string :=
  "[Source: " ++ get_or (metadata_source doc) "Unknown" ++ "]" ++ nl ++ page_content doc.

Definition _retrieve_policy_information (self : t) (query : string) : M string :=
  match vector_store self with
  | None => ret "No policy information available."
  | Some store =>
      try_except
        (let k_value := SecurityGuardrails.get_retrieval_k (security self) in
         docs <- call (CallRetriever query k_value (retrieval_score_threshold self))
                      (retriever_invoke store k_value (retrieval_score_threshold self) query) ;;
         match docs with
         | [] => ret "No relevant policy information found within your clearance level."
         | _ => ret (join (nl ++ nl ++ "---" ++ nl ++ nl) (map format_document docs))
         end)
        (fun e => ret "Policy database temporarily unavailable. Please try again later.")
  end.

(** [emp.get('employee_id', 'N/A')[:8] if emp.get('employee_id') else 'N/A'] *)
Definition short_id (emp : Info.t) : string :=
  match Info.employee_id emp with
  | Some (String c rest) => take_chars 8 (String c rest)
  | _ => "N/A"
  end.

Definition _format_employee_information_text (self : t) : string :=
  let emp := employee_information self in
  "
Asset Profile[cite: 1881]:
- Name: "
  ++ get_or (Info.name emp) "Unknown"
  ++ " "
  ++ get_or (Info.lastname emp) EmptyString
  ++ "
- ID: "
  ++ short_id emp
  ++ "
- Position: "
  ++ get_or (Info.position emp) "Unassigned"
  ++ "[cite: 139]
- Department: "
  ++ get_or (Info.department emp) "Unassigned"
  ++ "[cite: 126]
- Location: "
  ++ get_or (Info.location emp) "Unknown"
  ++ " (Security Level: "
  ++ get_or (Info.location_security_level emp) "GAMMA"
  ++ ")[cite: 1016, 1099]
- Security Clearance Level: SCL-"
  ++ str_of_int (SecurityGuardrails.scl_level (security self))
  ++ "[cite: 1028]
- Hire Date: "
  ++ get_or (Info.hire_date emp) "Unknown"
  ++ "
- Supervisor: "
  ++ get_or (Info.supervisor emp) "Unassigned"
  ++ "
- Facility Access: "
  ++ (if get_or (Info.has_facility_access emp) false then "Level-4 Authorized" else "Standard Access Only")
  ++ "[cite: 1049]
".

Definition _format_employee_information (self : t) : string :=
  if Info.truthy (employee_information self) then _format_employee_information_text self
  else "No employee information available.".

Definition transmission_text (self : t) (full_name emp_id location_reminder response : string) : string :=
  "
**TRANSMISSION START**
---
**IDENTIFIED ASSET**: "
  ++ full_name
  ++ " | "
  ++ emp_id
  ++ " | SCL-"
  ++ str_of_int (SecurityGuardrails.scl_level (security self))
  ++ " | "
  ++ SecurityGuardrails.location (security self)
  ++ "
**SUBJECT**: Employee Inquiry Response

**PROTOCOL RESPONSE**: 
"
  ++ response
  ++ "

**SECURITY COMPLIANCE NOTIFICATION**: 
This transmission is logged under Protocol 7-Alpha[cite: 1121]. Any unauthorized distribution of this information 
will result in immediate termination of employment and potential Experimental Participation assignment[cite: 1341].

"
  ++ location_reminder
  ++ "

" ++ dq ++ "Our business is life itself." ++ dq ++ "
---
**TRANSMISSION END**
".

Definition _format_transmission_response (self : t) (response : string) : string :=
  let emp := employee_information self in
  let full_name := get_or (Info.name emp) "Unknown" ++ " " ++ get_or (Info.lastname emp) EmptyString in
  let emp_id := short_id emp in
  if str_in "**TRANSMISSION START**" response then response
  else
    let location_reminder :=
      get_or (lookup_str Prompts.LOCATION_REMINDERS
                (SecurityGuardrails.location (security self))) EmptyString in
    strip (transmission_text self full_name emp_id location_reminder response).

Definition error_response : string :=
  "
**TRANSMISSION START**
---
**SYSTEM ALERT**: Temporary Access Restriction[cite: 1121]

**PROTOCOL RESPONSE**: 
The U-SIOP system is currently experiencing high demand or maintenance. 
Your inquiry has been queued for processing.

Please retry your request in a few moments. If this issue persists, 
contact the IT Help Desk at extension 4-UMBRELLA.

**SECURITY COMPLIANCE NOTIFICATION**: 
System outages are logged. Do not attempt to bypass security protocols during this time.
Unauthorized system access attempts may result in Basement Cleaning Detail (BCD) assignment[cite: 1333].

" ++ dq ++ "Our business is life itself." ++ dq ++ "
---
**TRANSMISSION END**
".

Section WithRuntime.
Context {RT : PyRuntime}.

Definition get_response (self : t) (user_input : string) : M string :=
  try_except
    (let '(is_allowed, denial_message) :=
       SecurityGuardrails.check_query_permission (security self) user_input in
     if negb is_allowed then
       ChatMessageHistory.add_message (chat_history self) "human" user_input ;;
       ChatMessageHistory.add_message (chat_history self) "ai" denial_message ;;
       ret denial_message
     else
       retrieved_policy_information <- _retrieve_policy_information self user_input ;;
       let employee_info := _format_employee_information self in
       let dynamic_instruction :=
         SecurityGuardrails.get_dynamic_system_instruction (security self) in
       formatted <- call (CallSystemPromptFormat employee_info retrieved_policy_information)
                         (system_prompt self employee_info retrieved_policy_information) ;;
       let formatted_system_prompt := formatted ++ nl ++ dynamic_instruction in
       history <- ChatMessageHistory.get_langchain_messages (chat_history self) ;;
       response <- call (CallChain formatted_system_prompt history user_input)
                        (llm self formatted_system_prompt history user_input) ;;
       let formatted_response := _format_transmission_response self response in
       ChatMessageHistory.add_message (chat_history self) "human" user_input ;;
       ChatMessageHistory.add_message (chat_history self) "ai" formatted_response ;;
       ret formatted_response)
    (fun e => ret (strip error_response)).

End WithRuntime.

Definition clear_history (self : t) : M unit :=
  ChatMessageHistory.clear (chat_history self).

Definition get_conversation_history (self : t) : M (list (string * string)) :=
  ChatMessageHistory.get_messages (chat_history self).

Definition get_employee_scl (self : t) : Z :=
  SecurityGuardrails.scl_level (security self).

Definition get_location_security (self : t) : string :=
  SecurityGuardrails.location_security (security self).

End OnboardingAssistant.

(** ** employees.py *)
Module Employees.

Record RoleData := {
  role_department : string;
  role_scl : Z;
  allowed_locations : list string
}.

Definition ROLE_DEPARTMENT_MAPPING : list (string * RoleData) :=
  [ ("Research Scientist",
     {| role_department := "R&D"; role_scl := 3;
        allowed_locations := ["Raccoon City HQ"; "Umbrella Europe"; "Umbrella Asia"] |});
    ("Senior Research Lead",
     {| role_department := "R&D"; role_scl := 4;
        allowed_locations := ["Raccoon City HQ"] |});
    ("Software Engineer",
     {| role_department := "IT"; role_scl := 2;
        allowed_locations :=
          ["Raccoon City HQ"; "Umbrella Europe"; "Umbrella Asia"; "Umbrella North America";
           "Umbrella South America"] |});
    ("IT Security Specialist",
     {| role_department := "IT"; role_scl := 3;
        allowed_locations := ["Raccoon City HQ"; "Umbrella Europe"] |});
    ("Operations Manager",
     {| role_department := "Operations"; role_scl := 2;
        allowed_locations :=
          ["Raccoon City HQ"; "Umbrella Europe"; "Umbrella Asia"; "Umbrella North America";
           "Umbrella South America"] |});
    ("HR Specialist",
     {| role_department := "HR"; role_scl := 1;
        allowed_locations := ["Raccoon City HQ"; "Umbrella Europe"; "Umbrella North America"] |});
    ("HR Director",
     {| role_department := "HR"; role_scl := 2;
        allowed_locations := ["Raccoon City HQ"] |});
    ("Security Officer",
     {| role_department := "Security"; role_scl := 4;
        allowed_locations := ["Raccoon City HQ"; "Umbrella Europe"] |});
    ("Junior Lab Technician",
     {| role_department := "R&D"; role_scl := 1;
        allowed_locations :=
          ["Umbrella Europe"; "Umbrella Asia"; "Umbrella North America";
           "Umbrella South America"] |});
    ("Facility Administrator",
     {| role_department := "Operations"; role_scl := 5;
        allowed_locations := ["Raccoon City HQ"] |}) ].

Record LocationData := {
  security_level : string;
  has_underground_facility : bool;
  special_protocols : list string;
  emergency_contact : string
}.

Definition LOCATION_PROTOCOLS : list (string * LocationData) :=
  [ ("Raccoon City HQ",
     {| security_level := "ALPHA"; has_underground_facility := true;
        special_protocols := ["Protocol Omega"; "Containment Level-4 Access"];
        emergency_contact := "ext. 4-UMBRELLA" |});
    ("Umbrella Europe",
     {| security_level := "BETA"; has_underground_facility := false;
        special_protocols := ["Standard Security"];
        emergency_contact := "ext. EU-SECURE" |});
    ("Umbrella Asia",
     {| security_level := "BETA"; has_underground_facility := false;
        special_protocols := ["Standard Security"];
        emergency_contact := "ext. ASIA-SEC" |});
    ("Umbrella North America",
     {| security_level := "GAMMA"; has_underground_facility := false;
        special_protocols := ["Remote Operations Protocol"];
        emergency_contact := "ext. NA-OPS" |});
    ("Umbrella South America",
     {| security_level := "GAMMA"; has_underground_facility := false;
        special_protocols := ["Remote Operations Protocol"];
        emergency_contact := "ext. SA-OPS" |}) ].

(** What [random] and [Faker] return during one iteration of the loop.  A
    choice from a sequence is the index drawn, taken modulo its length; the
    two confidential amounts are floats and are carried as rationals. *)
Record Draws := {
  position_draw : nat;
  location_draw : nat;
  uuid4 : string;
  first_name : string;
  last_name : string;
  email_draw : string;
  phone_number_draw : string;
  skills_draw : list string;
  hire_date_draw : string;
  supervisor_draw : string;
  salary_draw : QArith_base.Q;
  performance_draw : QArith_base.Q
}.

(** [random.choice(xs)] *)
Definition choice {A : Type} (draw : nat) (xs : list A) : option A :=
  nth_error xs (draw mod List.length xs)%nat.

(** One generated dictionary. *)
Record Employee := {
  employee_id : string;
  name : string;
  lastname : string;
  email : string;
  phone_number : string;
  position : string;
  department : string;
  clearance_level : Z;
  location : string;
  location_security_level : string;
  has_facility_access : bool;
  skills : list string;
  hire_date : string;
  supervisor : string;
  _confidential_salary : QArith_base.Q;
  _confidential_performance_score : QArith_base.Q;
  emergency_contact_ext : string
}.

(** The body of the loop; [None] stands for the [IndexError] and [KeyError]
    the lookups could raise. *)
Definition generate_employee (d : Draws) : option Employee :=
  match choice (position_draw d) (map fst ROLE_DEPARTMENT_MAPPING) with
  | None => None
  | Some position =>
      match lookup_str ROLE_DEPARTMENT_MAPPING position with
      | None => None
      | Some role_data =>
          let department := role_department role_data in
          let scl := role_scl role_data in
          match choice (location_draw d) (allowed_locations role_data) with
          | None => None
          | Some location =>
              let location_data := lookup_str LOCATION_PROTOCOLS location in
              Some
                {| employee_id := uuid4 d;
                   name := first_name d;
                   lastname := last_name d;
                   email := email_draw d;
                   phone_number := phone_number_draw d;
                   position := position;
                   department := department;
                   clearance_level := scl;
                   location := location;
                   location_security_level :=
                     get_or (option_map security_level location_data) "UNKNOWN";
                   has_facility_access :=
                     get_or (option_map has_underground_facility location_data) false
                     && (scl >=? 4);
                   skills := skills_draw d;
                   hire_date := hire_date_draw d;
                   supervisor := supervisor_draw d;
                   _confidential_salary := salary_draw d;
                   _confidential_performance_score := performance_draw d;
                   emergency_contact_ext :=
                     get_or (option_map emergency_contact location_data) "ext. 0-HELP" |}
          end
      end
  end.

(** [for _ in range(n): employees.append(...)], [rng i] being the draws of
    iteration [i]. *)
Fixpoint generate_loop (n : nat) (i : nat) (rng : nat -> Draws) : option (list Employee) :=
  match n with
  | O => Some []
  | S n' =>
      match generate_employee (rng i) with
      | None => None
      | Some employee =>
          match generate_loop n' (S i) rng with
          | None => None
          | Some employees => Some (employee :: employees)
          end
      end
  end.

Definition generate_employee_data (num_employees : Z) (rng : nat -> Draws)
  : option (list Employee) :=
  generate_loop (Z.to_nat num_employees) O rng.

Definition get_location_protocols (location : string) : option LocationData :=
  lookup_str LOCATION_PROTOCOLS location.

Definition get_role_requirements (position : string) : option RoleData :=
  lookup_str ROLE_DEPARTMENT_MAPPING position.

(** The dictionary as the assistant receives it from app.py. *)
Definition to_info (e : Employee) : Info.t :=
  {| Info.employee_id := Some (employee_id e);
     Info.name := Some (name e);
     Info.lastname := Some (lastname e);
     Info.position := Some (position e);
     Info.department := Some (department e);
     Info.clearance_level := Some (clearance_level e);
     Info.location := Some (location e);
     Info.location_security_level := Some (location_security_level e);
     Info.has_facility_access := Some (has_facility_access e);
     Info.hire_date := Some (hire_date e);
     Info.supervisor := Some (supervisor e);
     Info.other_keys :=
       ["email"; "phone_number"; "skills"; "_confidential_salary";
        "_confidential_performance_score"; "emergency_contact_ext"] |}.

End Employees.

(** ** Notions used to state the properties *)

(** The keyword a [for ... return] loop stops at: in the text, with no
    keyword of the text before it in the list. *)
Definition first_hit (keywords : list string) (text kw : string) : Prop :=
  exists before after,
    keywords = (before ++ kw :: after)%list
    /\ Forall (fun k => str_in k text = false) before
    /\ str_in kw text = true.

(** The forbidden keywords of a clearance level. *)
Definition forbidden (level : Z) : list string :=
  restricted_keywords (permissions_of level).

(** [tier] is the lowest of the levels 1 to 5 whose forbidden keywords do not
    include [kw]. *)
Definition lowest_tier_without (kw : string) (tier : Z) : Prop :=
  1 <= tier <= 5
  /\ ~ In kw (forbidden tier)
  /\ forall lower, 1 <= lower < tier -> In kw (forbidden lower).

(** A message shows a reference id: the text [Ref: ] followed by a tag, a
    dash and the code [_generate_ref_id] gives for some seed. *)
Definition shows_reference_id {RT : PyRuntime} (message : string) : Prop :=
  exists tag seed,
    is_substring ("Ref: " ++ tag ++ "-" ++ SecurityGuardrails._generate_ref_id seed) message.

(** A code of exactly four decimal digits. *)
Definition four_digit_code (code : string) : Prop :=
  String.length code = 4%nat /\ all_digits code = true.

(** The first and the second rule of [check_query_permission] as tests, and
    the outcome of its third rule alone. *)
Definition confidential_rule_fires {RT : PyRuntime} (query : string) : bool :=
  SecurityGuardrails.any_keyword_in SecurityGuardrails.CONFIDENTIAL_KEYWORDS (str_lower query).

Definition facility_rule_fires {RT : PyRuntime} (self : SecurityGuardrails.t) (query : string)
  : bool :=
  SecurityGuardrails.any_keyword_in SecurityGuardrails.FACILITY_KEYWORDS (str_lower query)
  && negb (SecurityGuardrails.has_facility_access self).

Definition clearance_rule {RT : PyRuntime} (self : SecurityGuardrails.t) (query : string)
  : bool * string :=
  match SecurityGuardrails.first_keyword_in
          (restricted_keywords (SecurityGuardrails.permissions self)) (str_lower query) with
  | Some keyword => (false, SecurityGuardrails._generate_scl_denial self keyword)
  | None => (true, EmptyString)
  end.

(** The next [n] sqlite operations succeed. *)
Definition storage_healthy (n : nat) (w : World) : Prop :=
  Forall (fun fault => fault = false) (firstn n (faults (db w))).

(** The rows a turn of session [sid] appends when both messages are stored. *)
Definition turn_rows (sid query answer : string) : list Row :=
  [ {| row_session_id := sid; row_role := "human"; row_content := query |};
    {| row_session_id := sid; row_role := "ai"; row_content := answer |} ].

(** The facility flag of a generated record: set exactly at the headquarters
    from level 4 on. *)
Definition flag_matches (e : Employees.Employee) : Prop :=
  Employees.has_facility_access e = true
  <-> Employees.location e = "Raccoon City HQ" /\ 4 <= Employees.clearance_level e.

(** ** Sample actors and collaborators *)
Module Sample.

Definition actor (level : Z) (facility : bool) : Info.t :=
  {| Info.employee_id := Some "3f2b8c1e-77aa-4d0e-9c55-0123456789ab";
     Info.name := Some "Jill";
     Info.lastname := Some "Valentine";
     Info.position := Some "Security Officer";
     Info.department := Some "Security";
     Info.clearance_level := Some level;
     Info.location := Some "Raccoon City HQ";
     Info.location_security_level := Some "ALPHA";
     Info.has_facility_access := Some facility;
     Info.hire_date := Some "2021-03-14";
     Info.supervisor := Some "Albert Wesker";
     Info.other_keys := ["email"] |}.

Definition guard (level : Z) (facility : bool) : SecurityGuardrails.t :=
  SecurityGuardrails.init (Some (actor level facility)).

(** A two-field system prompt. *)
Definition prompt (employee_information retrieved_policy_information : string)
  : result string :=
  Ok ("Asset Profile: " ++ employee_information
      ++ " Regulation Database: " ++ retrieved_policy_information).

Definition echo_llm (system : string) (history : list LcMessage) (input : string)
  : result string :=
  Ok ("Acknowledged: " ++ input).

Definition failing_llm (system : string) (history : list LcMessage) (input : string)
  : result string :=
  Raise (Exception "generator timeout").

Definition empty_store : OnboardingAssistant.VectorStore :=
  {| OnboardingAssistant.retriever_invoke := fun _ _ _ => Ok [] |}.

Definition broken_store : OnboardingAssistant.VectorStore :=
  {| OnboardingAssistant.retriever_invoke :=
       fun _ _ _ => Raise (Exception "connection refused") |}.

Definition handbook_store : OnboardingAssistant.VectorStore :=
  {| OnboardingAssistant.retriever_invoke :=
       fun _ _ _ =>
         Ok [ {| page_content := "Badges must be worn at all times.";
                 metadata_source := Some "handbook.pdf" |} ] |}.

Definition assistant
    (llm : string -> list LcMessage -> string -> result string)
    (store : option OnboardingAssistant.VectorStore)
    (level : Z) (facility : bool) : OnboardingAssistant.t :=
  OnboardingAssistant.init prompt llm store (Some (actor level facility))
    "session-1" "chat_history.db" OnboardingAssistant.default_score_threshold.

Definition fresh_world : World :=
  {| db := {| rows := []; faults := [] |}; calls := [] |}.

Definition draws (position_draw location_draw : nat) : Employees.Draws :=
  {| Employees.position_draw := position_draw;
     Employees.location_draw := location_draw;
     Employees.uuid4 := "3f2b8c1e-77aa-4d0e-9c55-0123456789ab";
     Employees.first_name := "Jill";
     Employees.last_name := "Valentine";
     Employees.email_draw := "jill@example.org";
     Employees.phone_number_draw := "555-0100";
     Employees.skills_draw := ["Python"; "Crisis Management"];
     Employees.hire_date_draw := "2021-03-14";
     Employees.supervisor_draw := "Albert Wesker";
     Employees.salary_draw := QArith_base.Qmake 50000 1;
     Employees.performance_draw := QArith_base.Qmake 4 1 |}.

End Sample.

(** ** Further notions: the table, the envelope, the generator *)

(** What [get_messages] selects for a session: its rows, by [id]. *)
Definition stored_messages (sid : string) (rs : list Row) : list (string * string) :=
  map (fun r => (row_role r, row_content r))
      (filter (fun r => String.eqb (row_session_id r) sid) rs).

(** The first sqlite operation to come raises [sqlite3.Error]. *)
Definition storage_fails_next (w : World) : Prop :=
  exists later, faults (db w) = true :: later.

Definition lc_content (m : LcMessage) : string :=
  match m with
  | HumanMessage content => content
  | AIMessage content => content
  end.

Definition chat_role (role : string) : bool :=
  String.eqb role "human" || String.eqb role "ai".

(** The markers of the transmission envelope. *)
Definition START_MARKER : string := "**TRANSMISSION START**".
Definition END_MARKER : string := "**TRANSMISSION END**".

(** Number of code points of a UTF-8 text. *)
Fixpoint count_chars (s : string) : nat :=
  match s with
  | EmptyString => O
  | String c rest => if is_continuation c then count_chars rest else S (count_chars rest)
  end.

(** The verdict of the guard without its message. *)
Definition is_allowed {RT : PyRuntime} (self : SecurityGuardrails.t) (query : string) : bool :=
  fst (SecurityGuardrails.check_query_permission self query).

(** A row written by a turn of session [sid]: the query as "human" or the
    answer as "ai". *)
Definition row_of_turn (sid query answer : string) (r : Row) : Prop :=
  row_session_id r = sid
  /\ ((row_role r = "human" /\ row_content r = query)
      \/ (row_role r = "ai" /\ row_content r = answer)).

(** A generated record agrees with the two tables of employees.py. *)
Definition consistent_with_tables (e : Employees.Employee) : Prop :=
  exists role place,
    Employees.get_role_requirements (Employees.position e) = Some role
    /\ Employees.department e = Employees.role_department role
    /\ Employees.clearance_level e = Employees.role_scl role
    /\ In (Employees.location e) (Employees.allowed_locations role)
    /\ Employees.get_location_protocols (Employees.location e) = Some place
    /\ Employees.location_security_level e = Employees.security_level place
    /\ Employees.emergency_contact_ext e = Employees.emergency_contact place
    /\ 1 <= Employees.clearance_level e <= 5.

(** Further sample worlds and actors. *)
Module Scenario.

Definition earlier_rows : list Row :=
  [ {| row_session_id := "session-1"; row_role := "human"; row_content := "hello" |};
    {| row_session_id := "session-2"; row_role := "human"; row_content := "other" |};
    {| row_session_id := "session-1"; row_role := "ai"; row_content := "welcome" |} ].

Definition used_world : World :=
  {| db := {| rows := earlier_rows; faults := [] |}; calls := [] |}.

Definition failing_world : World :=
  {| db := {| rows := earlier_rows; faults := [true] |}; calls := [] |}.

Definition history : ChatMessageHistory.t :=
  {| ChatMessageHistory.db_path := "chat_history.db";
     ChatMessageHistory.session_id := "session-1" |}.

Definition unknown_level : Info.t :=
  {| Info.employee_id := None; Info.name := Some "Ada"; Info.lastname := None;
     Info.position := None; Info.department := None;
     Info.clearance_level := Some 7;
     Info.location := Some "Arklay Laboratory";
     Info.location_security_level := None;
     Info.has_facility_access := None;
     Info.hire_date := None; Info.supervisor := None; Info.other_keys := [] |}.

End Scenario.

(** * Properties *)

(** ** Strings *)
Section StringFacts.

Lemma prefix_app (a b : string) : String.prefix a (a ++ b) = true.
Proof.
  induction a as [|c a IH]; simpl.
  - destruct b; reflexivity.
  - destruct (ascii_dec c c) as [_|ne]; [exact IH | contradiction].
Qed.

Lemma prefix_split (a s : string) :
  String.prefix a s = true -> exists post, s = a ++ post.
Proof.
  revert s; induction a as [|c a IH]; intros s Hp.
  - exists s; reflexivity.
  - destruct s as [|d s]; cbn [String.prefix] in Hp; [discriminate|].
    destruct (ascii_dec c d) as [->|_]; [|discriminate].
    destruct (IH s Hp) as [post ->].
    exists post; reflexivity.
Qed.

Lemma app_assoc_str (a b c : string) : (a ++ b) ++ c = a ++ b ++ c.
Proof. induction a as [|x a IH]; simpl; [reflexivity | now rewrite IH]. Qed.

Lemma str_in_complete (needle pre post : string) :
  str_in needle (pre ++ needle ++ post) = true.
Proof.
  induction pre as [|c pre IH].
  - simpl. destruct needle; simpl.
    + destruct post; reflexivity.
    + destruct (ascii_dec a a) as [_|ne]; [|contradiction].
      now rewrite prefix_app.
  - cbn [append str_in]. rewrite IH.
    destruct (String.prefix needle (String c (pre ++ needle ++ post))); reflexivity.
Qed.

Lemma str_in_sound (needle hay : string) :
  str_in needle hay = true -> is_substring needle hay.
Proof.
  induction hay as [|c hay IH]; cbn [str_in]; intros H.
  - destruct (String.prefix needle EmptyString) eqn:Hp; [|discriminate].
    destruct (prefix_split _ _ Hp) as [post Hpost].
    exists EmptyString, post; exact Hpost.
  - destruct (String.prefix needle (String c hay)) eqn:Hp.
    + destruct (prefix_split _ _ Hp) as [post Hpost].
      exists EmptyString, post; exact Hpost.
    + destruct (IH H) as (pre & post & ->).
      exists (String c pre), post; reflexivity.
Qed.

Lemma str_in_spec (needle hay : string) :
  str_in needle hay = true <-> is_substring needle hay.
Proof.
  split.
  - apply str_in_sound.
  - intros (pre & post & ->). apply str_in_complete.
Qed.

(** A text that contains [a ++ b] contains [a]. *)
Lemma str_in_app_l (a b hay : string) :
  str_in (a ++ b) hay = true -> str_in a hay = true.
Proof.
  intros H. apply str_in_spec in H. destruct H as (pre & post & ->).
  rewrite app_assoc_str. apply str_in_complete.
Qed.

Lemma str_mem_spec (x : string) (xs : list string) :
  str_mem x xs = true <-> In x xs.
Proof.
  unfold str_mem. rewrite existsb_exists. split.
  - intros (y & Hy & He). apply String.eqb_eq in He. now subst.
  - intros H. exists x. split; [exact H | apply String.eqb_refl].
Qed.

End StringFacts.

(** ** The loops of the guard *)
Section KeywordLoops.

Import SecurityGuardrails.

Lemma first_keyword_in_spec (keywords : list string) (text kw : string) :
  first_keyword_in keywords text = Some kw <-> first_hit keywords text kw.
Proof.
  unfold first_keyword_in, first_hit. induction keywords as [|k ks IH]; simpl.
  - split; [discriminate|]. intros (b & a & H & _). now destruct b.
  - destruct (str_in k text) eqn:Hk.
    + split.
      * intros [= <-]. exists [], ks. repeat split; [constructor | exact Hk].
      * intros (b & a & Heq & Hb & Hkw). destruct b as [|b0 b]; simpl in Heq.
        -- now injection Heq as -> _.
        -- injection Heq as <- _. inversion Hb; subst. congruence.
    + rewrite IH. split.
      * intros (b & a & -> & Hb & Hkw). exists (k :: b), a.
        repeat split; [constructor; assumption | exact Hkw].
      * intros (b & a & Heq & Hb & Hkw). destruct b as [|b0 b]; simpl in Heq.
        -- injection Heq as -> _. congruence.
        -- injection Heq as _ ->. inversion Hb; subst. now exists b, a.
Qed.

Lemma first_keyword_in_none (keywords : list string) (text : string) :
  first_keyword_in keywords text = None <-> any_keyword_in keywords text = false.
Proof.
  unfold first_keyword_in, any_keyword_in. induction keywords as [|k ks IH]; simpl.
  - tauto.
  - destruct (str_in k text); simpl; [split; discriminate | exact IH].
Qed.

Lemma any_keyword_in_spec (keywords : list string) (text : string) :
  any_keyword_in keywords text = true
  <-> exists kw, In kw keywords /\ is_substring kw text.
Proof.
  unfold any_keyword_in. rewrite existsb_exists.
  split; intros (kw & Hin & H); exists kw; (split; [exact Hin|]); now apply str_in_spec.
Qed.

End KeywordLoops.

(** ** The guard *)
Section Guard.

Import SecurityGuardrails.
Context {RT : PyRuntime}.

Lemma or_empty_with_level (info : Info.t) (level : Z) :
  Info.clearance_level info = Some level -> Info.or_empty (Some info) = info.
Proof.
  intros H. unfold Info.or_empty, Info.truthy. rewrite H. simpl.
  now rewrite !orb_true_r.
Qed.

Lemma init_with_level (info : Info.t) (level : Z) :
  Info.clearance_level info = Some level ->
  scl_level (init (Some info)) = level
  /\ permissions (init (Some info)) = permissions_of level
  /\ has_facility_access (init (Some info)) = get_or (Info.has_facility_access info) false.
Proof.
  intros H. unfold init. rewrite (or_empty_with_level info level H). simpl.
  rewrite H. simpl. repeat split.
Qed.

Lemma level_cases (level : Z) :
  1 <= level <= 5 -> level = 1 \/ level = 2 \/ level = 3 \/ level = 4 \/ level = 5.
Proof. lia. Qed.

(** C1.  Whatever the actor (any clearance level, 5 included, with or without
    facility access), a query whose lowered text contains a term of
    [CONFIDENTIAL_KEYWORDS] as a substring is denied with the confidential
    denial message; since nothing is assumed about the other two rules, the
    rule fires also when they would match. *)
Theorem confidential_rule_denies_every_actor (self : t) (query kw : string) :
  In kw CONFIDENTIAL_KEYWORDS ->
  is_substring kw (str_lower query) ->
  check_query_permission self query = (false, Prompts.confidential_data).
Proof.
  intros Hin Hsub. unfold check_query_permission.
  destruct (first_keyword_in CONFIDENTIAL_KEYWORDS (str_lower query)) eqn:Hf.
  - reflexivity.
  - apply first_keyword_in_none in Hf.
    assert (Ht : any_keyword_in CONFIDENTIAL_KEYWORDS (str_lower query) = true).
    { apply any_keyword_in_spec. now exists kw. }
    congruence.
Qed.

(** C8.  The retrieval breadth of an actor of level 1, 2, 3, 4, 5 is 2, 3, 4,
    5, 10, and it does not decrease when the level rises within 1..5. *)
Theorem retrieval_k_table_and_monotone (info1 info2 : Info.t) (level1 level2 : Z) :
  Info.clearance_level info1 = Some level1 ->
  Info.clearance_level info2 = Some level2 ->
  1 <= level1 -> level1 <= level2 -> level2 <= 5 ->
  get_retrieval_k (init (Some info1)) <= get_retrieval_k (init (Some info2))
  /\ (level1 = 1 -> get_retrieval_k (init (Some info1)) = 2)
  /\ (level1 = 2 -> get_retrieval_k (init (Some info1)) = 3)
  /\ (level1 = 3 -> get_retrieval_k (init (Some info1)) = 4)
  /\ (level1 = 4 -> get_retrieval_k (init (Some info1)) = 5)
  /\ (level1 = 5 -> get_retrieval_k (init (Some info1)) = 10).
Proof.
  intros H1 H2 Hlo Hle Hhi. unfold get_retrieval_k.
  destruct (init_with_level info1 level1 H1) as (_ & -> & _).
  destruct (init_with_level info2 level2 H2) as (_ & -> & _).
  destruct (level_cases level1 ltac:(lia)) as [-> | [-> | [-> | [-> | ->]]]];
    destruct (level_cases level2 ltac:(lia)) as [-> | [-> | [-> | [-> | ->]]]];
    cbn; repeat split; intros; lia.
Qed.

End Guard.

(** A level-5 actor with facility access asks about salary, a tyrant and
    the basement at once. *)
Lemma confidential_rule_denies_every_actor_witness :
  In "salary" SecurityGuardrails.CONFIDENTIAL_KEYWORDS
  /\ is_substring "salary" (@str_lower ascii_runtime "What is the SALARY of a Tyrant in the basement?")
  /\ @SecurityGuardrails.check_query_permission ascii_runtime (Sample.guard 5 true)
       "What is the SALARY of a Tyrant in the basement?"
     = (false, Prompts.confidential_data).
Proof.
  assert (Hin : In "salary" SecurityGuardrails.CONFIDENTIAL_KEYWORDS) by (simpl; tauto).
  assert (Hsub : is_substring "salary"
            (@str_lower ascii_runtime "What is the SALARY of a Tyrant in the basement?")).
  { apply str_in_spec. reflexivity. }
  split; [exact Hin | split; [exact Hsub |]].
  exact (@confidential_rule_denies_every_actor ascii_runtime (Sample.guard 5 true) _ _ Hin Hsub).
Defined.

(** Levels 2 and 5. *)
Lemma retrieval_k_table_and_monotone_witness :
  SecurityGuardrails.get_retrieval_k (Sample.guard 2 false)
  <= SecurityGuardrails.get_retrieval_k (Sample.guard 5 true).
Proof.
  refine (proj1 (retrieval_k_table_and_monotone
                   (Sample.actor 2 false) (Sample.actor 5 true) 2 5
                   eq_refl eq_refl _ _ _)); lia.
Defined.

(** ** Reference ids and required levels *)
Section Denials.

Import SecurityGuardrails.
Context {RT : PyRuntime}.

Lemma format_04d_four_digits (n : Z) :
  0 <= n < 10000 -> four_digit_code (format_04d n).
Proof.
  intros Hn.
  assert (Hall : forallb
            (fun k => let s := format_04d (Z.of_nat k) in
                      Nat.eqb (String.length s) 4 && all_digits s)
            (seq 0 (Z.to_nat 10000)) = true) by (vm_compute; reflexivity).
  rewrite forallb_forall in Hall.
  specialize (Hall (Z.to_nat n)).
  rewrite Z2Nat.id in Hall by lia.
  assert (Hin : In (Z.to_nat n) (seq 0 (Z.to_nat 10000))) by (apply in_seq; lia).
  apply Hall in Hin. apply andb_true_iff in Hin. destruct Hin as [Hlen Hdig].
  split; [now apply Nat.eqb_eq | exact Hdig].
Qed.

Lemma ref_id_four_digits (seed : string) : four_digit_code (_generate_ref_id seed).
Proof.
  unfold _generate_ref_id. apply format_04d_four_digits.
  apply Z.mod_pos_bound. lia.
Qed.

(** The loop of [_generate_scl_denial] finds the lowest tier that does not
    forbid the keyword, whatever the keyword. *)
Lemma required_scl_is_lowest (kw : string) :
  lowest_tier_without kw (required_scl_of kw).
Proof.
  unfold required_scl_of, lowest_tier_without, SCL_PERMISSIONS.
  cbn [required_scl_loop].
  destruct (str_mem kw (restricted_keywords scl_1)) eqn:H1; cbn [negb].
  2:{ repeat split; try lia.
      rewrite <- str_mem_spec. unfold forbidden. cbn. unfold scl_1 in H1. cbn in H1. congruence. }
  destruct (str_mem kw (restricted_keywords scl_2)) eqn:H2; cbn [negb].
  2:{ repeat split; try lia.
      - rewrite <- str_mem_spec. unfold forbidden. cbn. unfold scl_2 in H2. cbn in H2. congruence.
      - intros l Hl. assert (l = 1) as -> by lia. now apply str_mem_spec. }
  destruct (str_mem kw (restricted_keywords scl_3)) eqn:H3; cbn [negb].
  2:{ repeat split; try lia.
      - rewrite <- str_mem_spec. unfold forbidden. cbn. unfold scl_3 in H3. cbn in H3. congruence.
      - intros l Hl. assert (l = 1 \/ l = 2) as [-> | ->] by lia; now apply str_mem_spec. }
  destruct (str_mem kw (restricted_keywords scl_4)) eqn:H4; cbn [negb].
  2:{ repeat split; try lia.
      - rewrite <- str_mem_spec. unfold forbidden. cbn. unfold scl_4 in H4. cbn in H4. congruence.
      - intros l Hl. assert (l = 1 \/ l = 2 \/ l = 3) as [-> | [-> | ->]] by lia;
          now apply str_mem_spec. }
  cbn. repeat split; try lia.
  intros l Hl.
  assert (l = 1 \/ l = 2 \/ l = 3 \/ l = 4) as [-> | [-> | [-> | ->]]] by lia;
    now apply str_mem_spec.
Qed.

Lemma lowest_tier_unique (kw : string) (a b : Z) :
  lowest_tier_without kw a -> lowest_tier_without kw b -> a = b.
Proof.
  intros (Ha & Hna & Hla) (Hb & Hnb & Hlb).
  destruct (Z.lt_trichotomy a b) as [Hlt | [Heq | Hgt]]; [|exact Heq|].
  - exfalso. apply Hna. apply Hlb. lia.
  - exfalso. apply Hnb. apply Hla. lia.
Qed.

Lemma is_substring_skip_char (c : ascii) (needle hay : string) :
  is_substring needle hay -> is_substring needle (String c hay).
Proof. intros (pre & post & ->). now exists (String c pre), post. Qed.

Lemma is_substring_skip_app (a needle hay : string) :
  is_substring needle hay -> is_substring needle (a ++ hay).
Proof.
  intros (pre & post & ->). exists (a ++ pre), post. now rewrite app_assoc_str.
Qed.

Lemma scl_denial_shows_reference (required level : Z) (code : string) :
  is_substring ("Ref: SCL-" ++ code)
    (Prompts.scl_insufficient required level ("SCL-" ++ code)).
Proof.
  unfold Prompts.scl_insufficient. cbn [append].
  repeat first
    [ solve [ exists EmptyString; eexists; cbn [append]; reflexivity ]
    | apply is_substring_skip_char
    | apply is_substring_skip_app ].
Qed.

Lemma scl_denial_not_facility (required level : Z) (ref_id : string) :
  Prompts.scl_insufficient required level ref_id <> Prompts.underground_facility.
Proof.
  unfold Prompts.scl_insufficient, Prompts.underground_facility. cbn [append].
  discriminate.
Qed.

Lemma scl_denial_not_confidential (required level : Z) (ref_id : string) :
  Prompts.scl_insufficient required level ref_id <> Prompts.confidential_data.
Proof.
  unfold Prompts.scl_insufficient, Prompts.confidential_data. cbn [append].
  discriminate.
Qed.

(** [check_query_permission] is its three rules in order. *)
Lemma check_query_permission_rules (self : t) (query : string) :
  check_query_permission self query =
    if confidential_rule_fires query then (false, Prompts.confidential_data)
    else if facility_rule_fires self query then (false, Prompts.underground_facility)
    else clearance_rule self query.
Proof.
  unfold check_query_permission, confidential_rule_fires, facility_rule_fires, clearance_rule.
  destruct (first_keyword_in CONFIDENTIAL_KEYWORDS (str_lower query)) eqn:Hc.
  - destruct (any_keyword_in CONFIDENTIAL_KEYWORDS (str_lower query)) eqn:Ha; [reflexivity|].
    apply first_keyword_in_none in Ha. congruence.
  - apply first_keyword_in_none in Hc. rewrite Hc. reflexivity.
Qed.

End Denials.

Section GuardRules.

Import SecurityGuardrails.
Context {RT : PyRuntime}.

(** C2, amended.  For an actor of clearance level L (1 to 5, and any other
    level, which falls back to the table's first entry) whose query triggers
    neither the confidential rule nor the facility rule, if [kw] is the first
    keyword of L's forbidden list, in the order of the list, that the lowered
    query contains, then the query is denied with the clearance denial message
    for [kw]: it reports L as the actor's level, and as the required level the
    lowest tier, scanning upward from 1, whose forbidden set does not contain
    [kw]. *)
Theorem clearance_denial_reports_lowest_tier
    (info : Info.t) (level : Z) (query kw : string) :
  Info.clearance_level info = Some level ->
  confidential_rule_fires query = false ->
  facility_rule_fires (init (Some info)) query = false ->
  first_hit (forbidden level) (str_lower query) kw ->
  exists required,
    lowest_tier_without kw required
    /\ check_query_permission (init (Some info)) query
       = (false, Prompts.scl_insufficient required level ("SCL-" ++ _generate_ref_id kw)).
Proof.
  intros Hlevel Hconf Hfac Hhit.
  exists (required_scl_of kw). split; [apply required_scl_is_lowest|].
  rewrite check_query_permission_rules, Hconf, Hfac.
  unfold clearance_rule, _generate_scl_denial.
  destruct (init_with_level info level Hlevel) as (-> & -> & _).
  apply first_keyword_in_spec in Hhit. unfold forbidden in Hhit. rewrite Hhit.
  reflexivity.
Qed.

(** C4, amended.  A denial of [check_query_permission] is the fixed
    confidential text, the fixed facility text, or the clearance denial for
    the keyword the third rule stopped at; only the last shows a reference id,
    [Ref: SCL-] followed by the four decimal digits of [hash(keyword) % 10000],
    a code that depends on the keyword alone.  The two fixed texts show no
    reference id. *)
Theorem clearance_denial_shows_reference_id (self : t) (query message : string) :
  check_query_permission self query = (false, message) ->
  (message = Prompts.confidential_data
   \/ message = Prompts.underground_facility
   \/ exists kw,
        first_hit (restricted_keywords (permissions self)) (str_lower query) kw
        /\ message = _generate_scl_denial self kw
        /\ is_substring ("Ref: SCL-" ++ _generate_ref_id kw) message
        /\ _generate_ref_id kw = format_04d (py_hash kw mod 10000)
        /\ four_digit_code (_generate_ref_id kw))
  /\ ~ shows_reference_id Prompts.confidential_data
  /\ ~ shows_reference_id Prompts.underground_facility.
Proof.
  intros Hcheck. split; [|split].
  - rewrite check_query_permission_rules in Hcheck.
    destruct (confidential_rule_fires query); [left; congruence|].
    destruct (facility_rule_fires self query); [right; left; congruence|].
    right; right. unfold clearance_rule in Hcheck.
    destruct (first_keyword_in (restricted_keywords (permissions self)) (str_lower query))
      as [kw|] eqn:Hf; [|discriminate].
    injection Hcheck as <-. exists kw.
    split; [now apply first_keyword_in_spec|].
    split; [reflexivity|].
    split; [apply scl_denial_shows_reference|].
    split; [reflexivity | apply ref_id_four_digits].
  - intros (tag & seed & H). apply str_in_spec in H. apply str_in_app_l in H.
    vm_compute in H. discriminate.
  - intros (tag & seed & H). apply str_in_spec in H. apply str_in_app_l in H.
    vm_compute in H. discriminate.
Qed.

(** C5.  A query whose lowered text contains a term of [FACILITY_KEYWORDS]
    and no confidential term is denied with the facility denial message when
    the actor's facility-access flag is false; for an actor whose flag is
    true, whatever the clearance level, the outcome of the same query is that
    of the clearance-keyword rule alone, and its message is not the facility
    denial. *)
Theorem facility_rule_follows_access_flag
    (without_access with_access : t) (query kw : string) :
  In kw FACILITY_KEYWORDS ->
  is_substring kw (str_lower query) ->
  confidential_rule_fires query = false ->
  has_facility_access without_access = false ->
  has_facility_access with_access = true ->
  check_query_permission without_access query = (false, Prompts.underground_facility)
  /\ check_query_permission with_access query = clearance_rule with_access query
  /\ snd (check_query_permission with_access query) <> Prompts.underground_facility.
Proof.
  intros Hin Hsub Hconf Hno Hyes.
  assert (Hany : any_keyword_in FACILITY_KEYWORDS (str_lower query) = true).
  { apply any_keyword_in_spec. now exists kw. }
  assert (Hwith : check_query_permission with_access query = clearance_rule with_access query).
  { rewrite check_query_permission_rules, Hconf.
    unfold facility_rule_fires. rewrite Hyes, andb_false_r. reflexivity. }
  split; [|split].
  - rewrite check_query_permission_rules, Hconf.
    unfold facility_rule_fires. rewrite Hany, Hno. reflexivity.
  - exact Hwith.
  - rewrite Hwith. unfold clearance_rule.
    destruct (first_keyword_in _ _); cbn [snd].
    + apply scl_denial_not_facility.
    + discriminate.
Qed.

(** C9.  In [SCL_PERMISSIONS] the forbidden keywords of a higher level are
    among those of every lower level, level 5 forbids nothing, and a level-5
    actor is never denied by the clearance-keyword rule: the outcome of a
    query is an approval, the confidential denial or the facility denial. *)
Theorem forbidden_keywords_shrink :
  (forall level1 level2 kw,
      1 <= level1 -> level1 < level2 -> level2 <= 5 ->
      In kw (forbidden level2) -> In kw (forbidden level1))
  /\ forbidden 5 = []
  /\ (forall info query,
        Info.clearance_level info = Some 5 ->
        clearance_rule (init (Some info)) query = (true, EmptyString)
        /\ (check_query_permission (init (Some info)) query = (true, EmptyString)
            \/ check_query_permission (init (Some info)) query
               = (false, Prompts.confidential_data)
            \/ check_query_permission (init (Some info)) query
               = (false, Prompts.underground_facility))).
Proof.
  split; [|split].
  - intros level1 level2 kw Hlo Hlt Hhi.
    destruct (level_cases level1 ltac:(lia)) as [-> | [-> | [-> | [-> | ->]]]];
      destruct (level_cases level2 ltac:(lia)) as [-> | [-> | [-> | [-> | ->]]]];
      try lia; cbn; tauto.
  - reflexivity.
  - intros info query Hlevel.
    assert (Hrule : clearance_rule (init (Some info)) query = (true, EmptyString)).
    { unfold clearance_rule.
      destruct (init_with_level info 5 Hlevel) as (_ & -> & _). reflexivity. }
    split; [exact Hrule|].
    rewrite check_query_permission_rules, Hrule.
    destruct (confidential_rule_fires query); [right; left; reflexivity|].
    destruct (facility_rule_fires (init (Some info)) query);
      [right; right; reflexivity | left; reflexivity].
Qed.

End GuardRules.

(** C2 as stated fails when the query contains two forbidden keywords: at
    level 1 the query "secret tyrant" contains "secret", whose lowest tier is
    2, yet the denial reports SCL-5, the tier of "tyrant", which stands
    earlier in the level's list. *)
Lemma clearance_denial_any_keyword_counterexample :
  In "secret" (forbidden 1)
  /\ is_substring "secret" (@str_lower ascii_runtime "secret tyrant")
  /\ @confidential_rule_fires ascii_runtime "secret tyrant" = false
  /\ @facility_rule_fires ascii_runtime (Sample.guard 1 false) "secret tyrant" = false
  /\ lowest_tier_without "secret" 2
  /\ @SecurityGuardrails.check_query_permission ascii_runtime (Sample.guard 1 false)
       "secret tyrant"
     = (false, Prompts.scl_insufficient 5 1
                 ("SCL-" ++ @SecurityGuardrails._generate_ref_id ascii_runtime "tyrant"))
  /\ forall ref_id,
       @SecurityGuardrails.check_query_permission ascii_runtime (Sample.guard 1 false)
         "secret tyrant"
       <> (false, Prompts.scl_insufficient 2 1 ref_id).
Proof.
  split; [cbn; tauto|].
  split; [apply str_in_spec; reflexivity|].
  split; [reflexivity|].
  split; [reflexivity|].
  split.
  { assert (H2 : SecurityGuardrails.required_scl_of "secret" = 2) by reflexivity.
    rewrite <- H2. apply required_scl_is_lowest. }
  split; [vm_compute; reflexivity|].
  intros ref_id H. vm_compute in H. discriminate H.
Qed.

(** The same query: the loop stops at "tyrant". *)
Lemma clearance_denial_reports_lowest_tier_witness :
  exists required,
    lowest_tier_without "tyrant" required
    /\ @SecurityGuardrails.check_query_permission ascii_runtime (Sample.guard 1 false)
         "secret tyrant"
       = (false, Prompts.scl_insufficient required 1
                   ("SCL-" ++ @SecurityGuardrails._generate_ref_id ascii_runtime "tyrant")).
Proof.
  apply (@clearance_denial_reports_lowest_tier ascii_runtime
           (Sample.actor 1 false) 1 "secret tyrant" "tyrant").
  - reflexivity.
  - reflexivity.
  - reflexivity.
  - exists ["outbreak"; "specimen"; "t-virus"; "g-virus"; "nemesis"], ["secret"; "classified"].
    split; [reflexivity|]. split; [|reflexivity].
    repeat constructor.
Defined.

(** C4 as stated fails for the first two rules: the confidential and the
    facility denial show no reference id. *)
Lemma denial_reference_id_counterexample :
  @SecurityGuardrails.check_query_permission ascii_runtime (Sample.guard 1 false)
    "what is the salary policy"
  = (false, Prompts.confidential_data)
  /\ ~ @shows_reference_id ascii_runtime Prompts.confidential_data
  /\ @SecurityGuardrails.check_query_permission ascii_runtime (Sample.guard 1 false)
       "tell me about the underground facility"
     = (false, Prompts.underground_facility)
  /\ ~ @shows_reference_id ascii_runtime Prompts.underground_facility.
Proof.
  split; [vm_compute; reflexivity|].
  split.
  { intros (tag & seed & H). apply str_in_spec in H. apply str_in_app_l in H.
    vm_compute in H. discriminate. }
  split; [vm_compute; reflexivity|].
  intros (tag & seed & H). apply str_in_spec in H. apply str_in_app_l in H.
  vm_compute in H. discriminate.
Qed.

(** A level-2 actor asks about the T-Virus. *)
Lemma clearance_denial_shows_reference_id_witness :
  @SecurityGuardrails.check_query_permission ascii_runtime (Sample.guard 2 false)
    "Where is the T-Virus kept?"
  = (false, @SecurityGuardrails._generate_scl_denial ascii_runtime (Sample.guard 2 false) "t-virus")
  /\ ~ @shows_reference_id ascii_runtime Prompts.confidential_data.
Proof.
  assert (Hdenied :
    @SecurityGuardrails.check_query_permission ascii_runtime (Sample.guard 2 false)
      "Where is the T-Virus kept?"
    = (false, @SecurityGuardrails._generate_scl_denial ascii_runtime
                (Sample.guard 2 false) "t-virus")) by reflexivity.
  split; [exact Hdenied|].
  exact (proj1 (proj2 (@clearance_denial_shows_reference_id ascii_runtime
                         (Sample.guard 2 false) "Where is the T-Virus kept?" _ Hdenied))).
Defined.

(** The same question from a level-1 actor without access and from a level-5
    actor with access. *)
Lemma facility_rule_follows_access_flag_witness :
  @SecurityGuardrails.check_query_permission ascii_runtime (Sample.guard 1 false)
    "Tell me about the Underground facility"
  = (false, Prompts.underground_facility)
  /\ @SecurityGuardrails.check_query_permission ascii_runtime (Sample.guard 5 true)
       "Tell me about the Underground facility"
     = (true, EmptyString).
Proof.
  assert (Hin : In "underground" SecurityGuardrails.FACILITY_KEYWORDS) by (simpl; tauto).
  assert (Hsub : is_substring "underground"
            (@str_lower ascii_runtime "Tell me about the Underground facility")).
  { apply str_in_spec. reflexivity. }
  destruct (@facility_rule_follows_access_flag ascii_runtime
              (Sample.guard 1 false) (Sample.guard 5 true)
              "Tell me about the Underground facility" "underground"
              Hin Hsub eq_refl eq_refl eq_refl) as (Hdenied & Hrule & _).
  split; [exact Hdenied|].
  rewrite Hrule. reflexivity.
Defined.

(** ** The store, the retrieval adapter and the pipeline *)
Section Pipeline.

Import OnboardingAssistant.
Context {RT : PyRuntime}.

Lemma add_message_healthy (h : ChatMessageHistory.t) (role content : string) (w : World) :
  storage_healthy 1 w ->
  exists w',
    ChatMessageHistory.add_message h role content w = (Ok tt, w')
    /\ rows (db w') =
       (rows (db w) ++ [ {| row_session_id := ChatMessageHistory.session_id h;
                            row_role := role; row_content := content |} ])%list
    /\ faults (db w') = tl (faults (db w))
    /\ calls w' = calls w.
Proof.
  intros Hh. unfold ChatMessageHistory.add_message, ChatMessageHistory.sqlite_op.
  unfold storage_healthy in Hh.
  destruct (faults (db w)) as [|[|] later] eqn:Hf; cbn in *.
  - eexists; repeat split.
  - inversion Hh; discriminate.
  - eexists; repeat split.
Qed.

Lemma storage_healthy_step (n : nat) (w : World) :
  storage_healthy (S n) w ->
  faults (db w) = []
  \/ exists later,
       faults (db w) = false :: later
       /\ Forall (fun fault => fault = false) (firstn n later).
Proof.
  unfold storage_healthy. destruct (faults (db w)) as [|f later]; [now left|].
  cbn [firstn]. intros H. inversion H; subst. right. now exists later.
Qed.

(** Whatever the storage does, [add_message] returns, keeps the record of
    calls and leaves the earlier rows in place. *)
Lemma add_message_returns (h : ChatMessageHistory.t) (role content : string) (w : World) :
  exists w',
    ChatMessageHistory.add_message h role content w = (Ok tt, w')
    /\ calls w' = calls w
    /\ exists added, rows (db w') = (rows (db w) ++ added)%list.
Proof.
  unfold ChatMessageHistory.add_message, ChatMessageHistory.sqlite_op.
  destruct (faults (db w)) as [|[|] later]; cbn; eexists; (split; [reflexivity|]);
    (split; [reflexivity|]).
  - eexists; reflexivity.
  - exists []. now rewrite app_nil_r.
  - eexists; reflexivity.
Qed.

Lemma get_langchain_messages_returns (h : ChatMessageHistory.t) (w : World) :
  exists messages w',
    ChatMessageHistory.get_langchain_messages h w = (Ok messages, w')
    /\ rows (db w') = rows (db w).
Proof.
  unfold ChatMessageHistory.get_langchain_messages, ChatMessageHistory.get_messages,
    ChatMessageHistory.sqlite_op, bind, ret.
  destruct (faults (db w)) as [|[|] later]; cbn; do 2 eexists; split; reflexivity.
Qed.

Lemma format_document_nonempty (doc : Document) : format_document doc <> EmptyString.
Proof. unfold format_document. cbn. discriminate. Qed.

Lemma join_documents_nonempty (sep : string) (doc : Document) (docs : list Document) :
  join sep (map format_document (doc :: docs)) <> EmptyString.
Proof.
  cbn [map join]. destruct (map format_document docs); unfold format_document; cbn; discriminate.
Qed.

Lemma retrieve_keeps_table (self : t) (query : string) (w : World) :
  exists text w',
    _retrieve_policy_information self query w = (Ok text, w') /\ db w' = db w.
Proof.
  unfold _retrieve_policy_information.
  destruct (vector_store self) as [store|].
  - unfold try_except, bind, call, ret.
    destruct (retriever_invoke store _ _ query) as [[|doc docs]|e];
      do 2 eexists; split; reflexivity.
  - exists "No policy information available.", w. split; reflexivity.
Qed.

(** C7, amended.  [_retrieve_policy_information] always returns a text, never
    an exception, and the text is never empty: without a vector store
    ([None]) it is "No policy information available."; when the retriever
    raises it is the "temporarily unavailable" sentinel; when the retriever
    returns no passage it is the "no relevant policy information found"
    sentinel; otherwise it is the passages joined.  The message table is not
    touched. *)
Theorem retrieval_always_returns_text (self : t) (query : string) (w : World) :
  exists text w',
    _retrieve_policy_information self query w = (Ok text, w')
    /\ db w' = db w
    /\ text <> EmptyString
    /\ match vector_store self with
       | None => text = "No policy information available." /\ w' = w
       | Some store =>
           match retriever_invoke store
                   (SecurityGuardrails.get_retrieval_k (security self))
                   (retrieval_score_threshold self) query with
           | Raise _ =>
               text = "Policy database temporarily unavailable. Please try again later."
           | Ok [] =>
               text = "No relevant policy information found within your clearance level."
           | Ok docs =>
               text = join (nl ++ nl ++ "---" ++ nl ++ nl) (map format_document docs)
           end
       end.
Proof.
  unfold _retrieve_policy_information.
  destruct (vector_store self) as [store|].
  - unfold try_except, bind, call, ret.
    destruct (retriever_invoke store _ _ query) as [[|doc docs]|e];
      do 2 eexists; (split; [reflexivity|]); (split; [reflexivity|]);
      (split; [|reflexivity]); try discriminate.
    exact (join_documents_nonempty (nl ++ nl ++ "---" ++ nl ++ nl) doc docs).
  - exists "No policy information available.", w. repeat split. discriminate.
Qed.

(** C6.  When the guard denies the query, [get_response] returns the denial
    text, calls neither the retriever, nor the system prompt's [format], nor
    the chain, and does exactly two things to the store: [add_message] of the
    raw query with role "human", then [add_message] of the denial with role
    "ai"; with the storage working, the table gains exactly these two rows,
    in this order. *)
Theorem denied_turn_persists_query_then_denial
    (self : t) (query message : string) (w : World) :
  SecurityGuardrails.check_query_permission (security self) query = (false, message) ->
  exists w1 w2,
    get_response self query w = (Ok message, w2)
    /\ ChatMessageHistory.add_message (chat_history self) "human" query w = (Ok tt, w1)
    /\ ChatMessageHistory.add_message (chat_history self) "ai" message w1 = (Ok tt, w2)
    /\ calls w2 = calls w
    /\ (storage_healthy 2 w ->
        rows (db w2) =
        (rows (db w)
         ++ turn_rows (ChatMessageHistory.session_id (chat_history self)) query message)%list).
Proof.
  intros Hdenied.
  destruct (add_message_returns (chat_history self) "human" query w) as (w1 & Ha1 & Hc1 & _).
  destruct (add_message_returns (chat_history self) "ai" message w1) as (w2 & Ha2 & Hc2 & _).
  exists w1, w2.
  split.
  { unfold get_response, try_except. rewrite Hdenied. cbn [negb].
    unfold bind. rewrite Ha1, Ha2. reflexivity. }
  split; [exact Ha1|]. split; [exact Ha2|]. split; [congruence|].
  intros Hhealthy.
  destruct (storage_healthy_step 1 w Hhealthy) as [Hnil | (later & Hcons & Hlater)].
  - destruct (add_message_healthy (chat_history self) "human" query w)
      as (w1' & Ha1' & Hr1 & Hf1 & _).
    { unfold storage_healthy. rewrite Hnil. constructor. }
    assert (w1' = w1) by congruence. subst w1'.
    destruct (add_message_healthy (chat_history self) "ai" message w1)
      as (w2' & Ha2' & Hr2 & _ & _).
    { unfold storage_healthy. rewrite Hf1, Hnil. constructor. }
    assert (w2' = w2) by congruence. subst w2'.
    rewrite Hr2, Hr1. unfold turn_rows. now rewrite <- app_assoc.
  - destruct (add_message_healthy (chat_history self) "human" query w)
      as (w1' & Ha1' & Hr1 & Hf1 & _).
    { unfold storage_healthy. rewrite Hcons. repeat constructor. }
    assert (w1' = w1) by congruence. subst w1'.
    destruct (add_message_healthy (chat_history self) "ai" message w1)
      as (w2' & Ha2' & Hr2 & _ & _).
    { unfold storage_healthy. rewrite Hf1, Hcons. exact Hlater. }
    assert (w2' = w2) by congruence. subst w2'.
    rewrite Hr2, Hr1. unfold turn_rows. now rewrite <- app_assoc.
Qed.

(** When the guard approves and the system prompt's [format] or the chain
    raises, [get_response] returns the fixed degraded envelope and no
    exception, and the message table keeps the rows it had: the query is not
    stored. *)
Lemma failed_turn_returns_envelope_and_stores_nothing
    (self : t) (query : string) (w : World) :
  fst (SecurityGuardrails.check_query_permission (security self) query) = true ->
  (exists e, forall a b, system_prompt self a b = Raise e)
  \/ (exists e, forall s h i, llm self s h i = Raise e) ->
  exists w',
    get_response self query w = (Ok (strip error_response), w')
    /\ rows (db w') = rows (db w).
Proof.
  intros Hallowed Hfail.
  unfold get_response, try_except.
  destruct (SecurityGuardrails.check_query_permission (security self) query)
    as [allowed message]. cbn in Hallowed. subst allowed. cbn [negb].
  destruct (retrieve_keeps_table self query w) as (text & w1 & Hr & Hdb1).
  unfold bind at 1. rewrite Hr.
  unfold bind at 1. unfold call at 1.
  destruct (system_prompt self (_format_employee_information self) text) as [formatted|e] eqn:Hsp.
  - destruct Hfail as [[e He] | [e He]]; [rewrite He in Hsp; discriminate|].
    set (w2 := {| db := db w1; calls := _ |}).
    destruct (get_langchain_messages_returns (chat_history self) w2)
      as (history & w3 & Hh & Hrows3).
    unfold bind at 1. rewrite Hh.
    unfold bind at 1. unfold call at 1. rewrite He.
    unfold ret. eexists. split; [reflexivity|].
    cbn. rewrite Hrows3. subst w2. cbn. now rewrite Hdb1.
  - unfold ret. eexists. split; [reflexivity|]. cbn. now rewrite Hdb1.
Qed.

End Pipeline.

(** C3.  The chain raises during an approved turn: [get_response] returns the
    degraded envelope and raises nothing, after the retriever, the prompt's
    [format] and the chain were called, but the message table is still empty:
    the raw query was not stored. *)
Theorem generator_failure_drops_query :
  let outcome :=
    @OnboardingAssistant.get_response ascii_runtime
      (Sample.assistant Sample.failing_llm (Some Sample.handbook_store) 1 false)
      "What is the dress code?" Sample.fresh_world in
  fst outcome = Ok (strip OnboardingAssistant.error_response)
  /\ rows (db (snd outcome)) = []
  /\ List.length (calls (snd outcome)) = 3%nat
  /\ @SecurityGuardrails.check_query_permission ascii_runtime
       (OnboardingAssistant.security
          (Sample.assistant Sample.failing_llm (Some Sample.handbook_store) 1 false))
       "What is the dress code?" = (true, EmptyString).
Proof.
  vm_compute. repeat split.
Qed.

(** C7 as stated fails when the store is unavailable: with no vector store
    the adapter returns "No policy information available.", not the
    "temporarily unavailable" sentinel. *)
Lemma retrieval_without_store_counterexample :
  OnboardingAssistant._retrieve_policy_information
    (Sample.assistant Sample.echo_llm None 1 false) "What is the dress code?"
    Sample.fresh_world
  = (Ok "No policy information available.", Sample.fresh_world)
  /\ "No policy information available."
     <> "Policy database temporarily unavailable. Please try again later."
  /\ str_in "temporarily unavailable" "No policy information available." = false.
Proof.
  split; [reflexivity|]. split; [discriminate | reflexivity].
Qed.

(** A denied salary question on a fresh table. *)
Lemma denied_turn_persists_query_then_denial_witness :
  exists w2,
    @OnboardingAssistant.get_response ascii_runtime
      (Sample.assistant Sample.echo_llm (Some Sample.handbook_store) 1 false)
      "what is the salary policy" Sample.fresh_world
    = (Ok Prompts.confidential_data, w2)
    /\ rows (db w2) = turn_rows "session-1" "what is the salary policy" Prompts.confidential_data
    /\ calls w2 = [].
Proof.
  destruct (@denied_turn_persists_query_then_denial ascii_runtime
              (Sample.assistant Sample.echo_llm (Some Sample.handbook_store) 1 false)
              "what is the salary policy" Prompts.confidential_data Sample.fresh_world
              eq_refl)
    as (w1 & w2 & Hresp & _ & _ & Hcalls & Hrows).
  exists w2. split; [exact Hresp|]. split; [|exact Hcalls].
  apply Hrows. constructor.
Defined.

(** ** The employee generator *)
Section Generator.

Import Employees.

Ltac cases_below i Hi :=
  lazymatch type of Hi with
  | (i < O)%nat => exfalso; inversion Hi
  | (i < S _)%nat =>
      destruct i as [|i]; [ | apply <- Nat.succ_lt_mono in Hi; cases_below i Hi ]
  end.

Lemma generate_employee_flag (d : Draws) :
  exists e, generate_employee d = Some e /\ flag_matches e.
Proof.
  unfold generate_employee, choice.
  change (List.length (map fst ROLE_DEPARTMENT_MAPPING)) with 10%nat.
  assert (Hi : (position_draw d mod 10 < 10)%nat) by (apply Nat.mod_upper_bound; lia).
  set (i := (position_draw d mod 10)%nat) in *. clearbody i.
  cases_below i Hi; cbn -[Nat.modulo];
    match goal with
    | |- context [nth_error ?xs (_ mod ?n)%nat] =>
        let Hj := fresh "Hj" in
        assert (Hj : (location_draw d mod n < n)%nat) by (apply Nat.mod_upper_bound; lia);
        set (j := (location_draw d mod n)%nat) in *; clearbody j;
        cases_below j Hj
    end;
    cbn; eexists; (split; [reflexivity|]); unfold flag_matches; cbn;
    (split; [ intros H; first [ discriminate H | split; [reflexivity | lia] ]
            | intros [Hloc Hscl]; first [ reflexivity | discriminate Hloc | lia ] ]).
Qed.

Lemma generate_loop_flags (n i : nat) (rng : nat -> Draws) :
  exists employees,
    generate_loop n i rng = Some employees
    /\ List.length employees = n
    /\ Forall flag_matches employees.
Proof.
  revert i; induction n as [|n IH]; intros i; cbn [generate_loop].
  - exists []. repeat split. constructor.
  - destruct (generate_employee_flag (rng i)) as (e & -> & He).
    destruct (IH (S i)) as (es & -> & Hlen & Hes).
    exists (e :: es). split; [reflexivity|]. split; [cbn; now rewrite Hlen|].
    now constructor.
Qed.

(** C10.  [generate_employee_data] returns a list of the requested length,
    and in every record of it [has_facility_access] is true exactly when the
    location is "Raccoon City HQ" and the clearance level is at least 4;
    "Raccoon City HQ" is the only entry of [LOCATION_PROTOCOLS] with an
    underground facility. *)
Theorem facility_access_only_at_hq_from_level_4 :
  (forall (num_employees : Z) (rng : nat -> Draws),
      exists employees,
        generate_employee_data num_employees rng = Some employees
        /\ List.length employees = Z.to_nat num_employees
        /\ forall e, In e employees ->
             (has_facility_access e = true
              <-> location e = "Raccoon City HQ" /\ 4 <= clearance_level e))
  /\ (forall place data,
        In (place, data) LOCATION_PROTOCOLS ->
        (has_underground_facility data = true <-> place = "Raccoon City HQ")).
Proof.
  split.
  - intros num_employees rng. unfold generate_employee_data.
    destruct (generate_loop_flags (Z.to_nat num_employees) O rng) as (es & Hgen & Hlen & Hall).
    exists es. split; [exact Hgen|]. split; [exact Hlen|].
    intros e He. rewrite Forall_forall in Hall. exact (Hall e He).
  - intros place data Hin. cbn in Hin.
    repeat (destruct Hin as [Hin | Hin]; [injection Hin as <- <-; cbn; split;
             intros H; first [reflexivity | discriminate H] |]).
    contradiction.
Qed.

End Generator.

(** ** The message table *)
Section Table.

Import ChatMessageHistory.

Lemma sqlite_op_healthy {A : Type} (on_ok : list Row -> A * list Row) (on_error : A)
    (w : World) :
  storage_healthy 1 w ->
  sqlite_op on_ok on_error w =
    (Ok (fst (on_ok (rows (db w)))),
     {| db := {| rows := snd (on_ok (rows (db w))); faults := tl (faults (db w)) |};
        calls := calls w |}).
Proof.
  unfold storage_healthy, sqlite_op. intros Hh.
  destruct (faults (db w)) as [|[|] later]; cbn in *.
  - now destruct (on_ok (rows (db w))).
  - inversion Hh; discriminate.
  - now destruct (on_ok (rows (db w))).
Qed.

Lemma sqlite_op_fault {A : Type} (on_ok : list Row -> A * list Row) (on_error : A)
    (w : World) (later : list bool) :
  faults (db w) = true :: later ->
  sqlite_op on_ok on_error w =
    (Ok on_error,
     {| db := {| rows := rows (db w); faults := later |}; calls := calls w |}).
Proof. unfold sqlite_op. now intros ->. Qed.

Lemma storage_healthy_tl (n : nat) (w w' : World) :
  storage_healthy (S n) w ->
  faults (db w') = tl (faults (db w)) ->
  storage_healthy n w'.
Proof.
  unfold storage_healthy. intros Hh ->.
  destruct (faults (db w)) as [|f later]; cbn in *.
  - destruct n; constructor.
  - now inversion Hh.
Qed.

Lemma storage_healthy_first (n : nat) (w : World) :
  storage_healthy (S n) w -> storage_healthy 1 w.
Proof.
  unfold storage_healthy. destruct (faults (db w)) as [|f later]; cbn; intros Hh.
  - constructor.
  - inversion Hh; subst. constructor; [reflexivity | constructor].
Qed.

Lemma stored_messages_app (sid : string) (a b : list Row) :
  stored_messages sid (a ++ b) = (stored_messages sid a ++ stored_messages sid b)%list.
Proof. unfold stored_messages. now rewrite filter_app, map_app. Qed.

Lemma stored_messages_after_clear (sid other : string) (rs : list Row) :
  stored_messages other
    (filter (fun r => negb (String.eqb (row_session_id r) sid)) rs)
  = if String.eqb sid other then [] else stored_messages other rs.
Proof.
  unfold stored_messages. induction rs as [|r rs IH]; cbn [filter map].
  - now destruct (String.eqb sid other).
  - destruct (String.eqb_spec (row_session_id r) sid) as [Hs | Hs]; cbn [negb filter map].
    + rewrite IH. destruct (String.eqb_spec sid other) as [Ho | Ho]; [reflexivity|].
      destruct (String.eqb_spec (row_session_id r) other) as [Hr | Hr]; [congruence|].
      reflexivity.
    + destruct (String.eqb_spec (row_session_id r) other) as [Hr | Hr]; cbn [map]; rewrite IH.
      * destruct (String.eqb_spec sid other) as [Ho | Ho]; [congruence | reflexivity].
      * reflexivity.
Qed.

(** X1.  With the storage working, [clear] followed by [get_messages] on the
    same session lists nothing, and [clear] leaves the messages of every other
    session as they were. *)
Theorem clear_empties_own_session_only (h : t) (w : World) :
  storage_healthy 2 w ->
  exists w1 w2,
    clear h w = (Ok tt, w1)
    /\ get_messages h w1 = (Ok [], w2)
    /\ forall other, other <> session_id h ->
         stored_messages other (rows (db w1)) = stored_messages other (rows (db w)).
Proof.
  intros Hh.
  pose proof (storage_healthy_first _ _ Hh) as H1.
  unfold clear, get_messages.
  rewrite (sqlite_op_healthy _ _ w H1). cbn [fst snd].
  set (w1 := {| db := _; calls := calls w |}).
  assert (H2 : storage_healthy 1 w1) by (apply (storage_healthy_tl 1 w w1 Hh); reflexivity).
  exists w1. eexists. split; [reflexivity|].
  rewrite (sqlite_op_healthy _ _ w1 H2). cbn [fst snd]. split.
  - f_equal. f_equal. subst w1. cbn [db rows].
    change (stored_messages (session_id h)
              (filter (fun r => negb (String.eqb (row_session_id r) (session_id h)))
                      (rows (db w))) = []).
    rewrite stored_messages_after_clear. now rewrite String.eqb_refl.
  - intros other Hne. subst w1. cbn [db rows].
    rewrite stored_messages_after_clear.
    destruct (String.eqb (session_id h) other) eqn:He; [|reflexivity].
    apply String.eqb_eq in He. congruence.
Qed.

(** X2.  With the storage working, [get_messages] after [add_message] lists
    what the session held before, in the same order, followed by the new
    message; the messages of every other session are unchanged. *)
Theorem add_message_then_get_messages (h : t) (role content : string) (w : World) :
  storage_healthy 2 w ->
  exists w1 w2,
    add_message h role content w = (Ok tt, w1)
    /\ get_messages h w1
       = (Ok (stored_messages (session_id h) (rows (db w)) ++ [(role, content)])%list, w2)
    /\ forall other, other <> session_id h ->
         stored_messages other (rows (db w1)) = stored_messages other (rows (db w)).
Proof.
  intros Hh.
  pose proof (storage_healthy_first _ _ Hh) as H1.
  unfold add_message, get_messages.
  rewrite (sqlite_op_healthy _ _ w H1). cbn [fst snd].
  set (w1 := {| db := _; calls := calls w |}).
  assert (H2 : storage_healthy 1 w1) by (apply (storage_healthy_tl 1 w w1 Hh); reflexivity).
  exists w1. eexists. split; [reflexivity|].
  rewrite (sqlite_op_healthy _ _ w1 H2). cbn [fst snd]. split.
  - f_equal. f_equal. subst w1. cbn [db rows].
    change (stored_messages (session_id h)
              (rows (db w) ++ [ {| row_session_id := session_id h; row_role := role;
                                   row_content := content |} ])
            = (stored_messages (session_id h) (rows (db w)) ++ [(role, content)])%list).
    rewrite stored_messages_app. f_equal.
    unfold stored_messages. cbn. now rewrite String.eqb_refl.
  - intros other Hne. subst w1. cbn [db rows].
    rewrite stored_messages_app. unfold stored_messages at 2. cbn.
    destruct (String.eqb (session_id h) other) eqn:He.
    + apply String.eqb_eq in He. congruence.
    + cbn. now rewrite app_nil_r.
Qed.

(** X3.  When the sqlite operation raises [sqlite3.Error], [add_message] and
    [clear] return normally and leave every row in place, and [get_messages]
    returns the empty list although the rows are still there. *)
Theorem sqlite_error_is_swallowed (h : t) (role content : string) (w : World) :
  storage_fails_next w ->
  (exists w', add_message h role content w = (Ok tt, w') /\ rows (db w') = rows (db w))
  /\ (exists w', clear h w = (Ok tt, w') /\ rows (db w') = rows (db w))
  /\ (exists w', get_messages h w = (Ok [], w') /\ rows (db w') = rows (db w)).
Proof.
  intros (later & Hf). unfold add_message, clear, get_messages.
  rewrite !(sqlite_op_fault _ _ w later Hf).
  repeat split; eexists; split; reflexivity.
Qed.

Lemma to_langchain_contents (messages : list (string * string)) :
  Forall (fun m => chat_role (fst m) = true) messages ->
  map lc_content (to_langchain messages) = map snd messages.
Proof.
  induction 1 as [|[role content] rest Hrole _ IH]; cbn [to_langchain map].
  - reflexivity.
  - unfold chat_role in Hrole. cbn [fst] in Hrole.
    destruct (String.eqb role "human"); cbn [map lc_content snd].
    + now rewrite IH.
    + cbn in Hrole. rewrite Hrole. cbn [map lc_content snd]. now rewrite IH.
Qed.

(** X4.  [get_langchain_messages] turns a "human" row into a [HumanMessage]
    and an "ai" row into an [AIMessage] and skips any other role: the result
    is never longer than the stored list, and when every stored role is
    "human" or "ai" it has one message per row, with the same contents in the
    same order. *)
Theorem langchain_messages_mirror_chat_rows (messages : list (string * string)) :
  (List.length (to_langchain messages) <= List.length messages)%nat
  /\ (Forall (fun m => chat_role (fst m) = true) messages ->
      map lc_content (to_langchain messages) = map snd messages
      /\ List.length (to_langchain messages) = List.length messages)
  /\ (forall content, to_langchain [("human", content)] = [HumanMessage content])
  /\ (forall content, to_langchain [("ai", content)] = [AIMessage content])
  /\ (forall role content, chat_role role = false -> to_langchain [(role, content)] = []).
Proof.
  split; [|split; [|split; [|split]]].
  - induction messages as [|[role content] rest IH]; cbn [to_langchain List.length].
    + lia.
    + destruct (String.eqb role "human"); [cbn; lia|].
      destruct (String.eqb role "ai"); cbn; lia.
  - intros Hall. pose proof (to_langchain_contents messages Hall) as Hc.
    split; [exact Hc|].
    rewrite <- (length_map lc_content), Hc. apply length_map.
  - reflexivity.
  - reflexivity.
  - intros role content Hrole. unfold chat_role in Hrole. cbn [to_langchain].
    apply orb_false_iff in Hrole. destruct Hrole as [-> ->]. reflexivity.
Qed.

End Table.

(** The table of [Scenario.used_world]: two rows of session-1, one of
    session-2. *)
Lemma clear_empties_own_session_only_witness :
  exists w1 w2,
    ChatMessageHistory.clear Scenario.history Scenario.used_world = (Ok tt, w1)
    /\ ChatMessageHistory.get_messages Scenario.history w1 = (Ok [], w2)
    /\ stored_messages "session-2" (rows (db w1)) = [("human", "other")].
Proof.
  destruct (clear_empties_own_session_only Scenario.history Scenario.used_world)
    as (w1 & w2 & Hc & Hg & Hother).
  { constructor. }
  exists w1, w2. split; [exact Hc|]. split; [exact Hg|].
  rewrite (Hother "session-2"); [reflexivity | discriminate].
Defined.

Lemma add_message_then_get_messages_witness :
  exists w1 w2,
    ChatMessageHistory.add_message Scenario.history "human" "next" Scenario.used_world
    = (Ok tt, w1)
    /\ ChatMessageHistory.get_messages Scenario.history w1
       = (Ok [("human", "hello"); ("ai", "welcome"); ("human", "next")], w2).
Proof.
  destruct (add_message_then_get_messages Scenario.history "human" "next" Scenario.used_world)
    as (w1 & w2 & Ha & Hg & _).
  { constructor. }
  exists w1, w2. split; [exact Ha | exact Hg].
Defined.

Lemma sqlite_error_is_swallowed_witness :
  exists w',
    ChatMessageHistory.get_messages Scenario.history Scenario.failing_world = (Ok [], w')
    /\ rows (db w') = Scenario.earlier_rows.
Proof.
  assert (Hf : storage_fails_next Scenario.failing_world) by (exists []; reflexivity).
  exact (proj2 (proj2 (sqlite_error_is_swallowed Scenario.history "human" "next"
                         Scenario.failing_world Hf))).
Defined.

(** ** More on the guard *)
Section GuardExtras.

Import SecurityGuardrails.
Context {RT : PyRuntime}.

Lemma denial_texts_nonempty (required level : Z) (ref_id : string) :
  Prompts.confidential_data <> EmptyString
  /\ Prompts.underground_facility <> EmptyString
  /\ Prompts.scl_insufficient required level ref_id <> EmptyString.
Proof.
  repeat split; unfold Prompts.confidential_data, Prompts.underground_facility,
    Prompts.scl_insufficient; cbn [append]; discriminate.
Qed.

Lemma is_allowed_rules (self : t) (query : string) :
  is_allowed self query =
    negb (confidential_rule_fires query)
    && negb (facility_rule_fires self query)
    && negb (any_keyword_in (restricted_keywords (permissions self)) (str_lower query)).
Proof.
  unfold is_allowed. rewrite check_query_permission_rules.
  destruct (confidential_rule_fires query); [reflexivity|].
  destruct (facility_rule_fires self query); [reflexivity|].
  unfold clearance_rule. cbn [negb andb].
  destruct (first_keyword_in _ _) eqn:Hf.
  - destruct (any_keyword_in _ _) eqn:Ha; [reflexivity|].
    apply first_keyword_in_none in Ha. congruence.
  - apply first_keyword_in_none in Hf. now rewrite Hf.
Qed.

(** X5.  The guard approves a query exactly when none of its three rules
    fires on the lowered text, and its flag and its message agree: the
    message is empty exactly when the query is approved, so every denial
    carries a text. *)
Theorem approval_iff_no_rule_fires (self : t) (query : string) :
  (is_allowed self query = true
   <-> confidential_rule_fires query = false
       /\ facility_rule_fires self query = false
       /\ any_keyword_in (restricted_keywords (permissions self)) (str_lower query) = false)
  /\ (is_allowed self query = true
      <-> snd (check_query_permission self query) = EmptyString).
Proof.
  split.
  - rewrite is_allowed_rules, !andb_true_iff, !negb_true_iff. tauto.
  - unfold is_allowed. rewrite check_query_permission_rules.
    destruct (denial_texts_nonempty 0 0 EmptyString) as (Hc & Hf & _).
    destruct (confidential_rule_fires query); cbn [fst snd].
    { split; [discriminate | intros H; now apply Hc in H]. }
    destruct (facility_rule_fires self query); cbn [fst snd].
    { split; [discriminate | intros H; now apply Hf in H]. }
    unfold clearance_rule, _generate_scl_denial.
    destruct (first_keyword_in _ _); cbn [fst snd].
    + split; [discriminate|]. intros H.
      now apply (proj2 (proj2 (denial_texts_nonempty _ _ _))) in H.
    + tauto.
Qed.

Lemma any_keyword_in_incl (small large : list string) (text : string) :
  incl small large ->
  any_keyword_in large text = false -> any_keyword_in small text = false.
Proof.
  intros Hincl Hlarge. unfold any_keyword_in in *.
  destruct (existsb (fun kw => str_in kw text) small) eqn:Hs; [|reflexivity].
  apply existsb_exists in Hs. destruct Hs as (kw & Hin & Hkw).
  assert (Ht : existsb (fun kw => str_in kw text) large = true).
  { apply existsb_exists. exists kw. split; [now apply Hincl | exact Hkw]. }
  congruence.
Qed.

Lemma forbidden_incl (level1 level2 : Z) :
  1 <= level1 -> level1 <= level2 -> level2 <= 5 ->
  incl (forbidden level2) (forbidden level1).
Proof.
  intros Hlo Hle Hhi kw.
  destruct (level_cases level1 ltac:(lia)) as [-> | [-> | [-> | [-> | ->]]]];
    destruct (level_cases level2 ltac:(lia)) as [-> | [-> | [-> | [-> | ->]]]];
    try lia; cbn; tauto.
Qed.

(** X6.  Access grows with the actor: a query the guard approves for an actor
    of level L1 is approved for every actor of a level L2 with
    1 <= L1 <= L2 <= 5 who has facility access whenever the first one has. *)
Theorem higher_clearance_keeps_access
    (info1 info2 : Info.t) (level1 level2 : Z) (query : string) :
  Info.clearance_level info1 = Some level1 ->
  Info.clearance_level info2 = Some level2 ->
  1 <= level1 -> level1 <= level2 -> level2 <= 5 ->
  (get_or (Info.has_facility_access info1) false = true ->
   get_or (Info.has_facility_access info2) false = true) ->
  is_allowed (init (Some info1)) query = true ->
  is_allowed (init (Some info2)) query = true.
Proof.
  intros H1 H2 Hlo Hle Hhi Hflag Hallowed.
  rewrite is_allowed_rules in *.
  destruct (init_with_level info1 level1 H1) as (_ & Hp1 & Hf1).
  destruct (init_with_level info2 level2 H2) as (_ & Hp2 & Hf2).
  unfold facility_rule_fires in *. rewrite Hp1, Hf1 in Hallowed. rewrite Hp2, Hf2.
  apply andb_true_iff in Hallowed. destruct Hallowed as [Hallowed Hkw].
  apply andb_true_iff in Hallowed. destruct Hallowed as [Hconf Hfac].
  rewrite Hconf. cbn [andb].
  apply negb_true_iff in Hkw, Hfac.
  pose proof (any_keyword_in_incl _ _ _ (forbidden_incl level1 level2 Hlo Hle Hhi) Hkw)
    as Hkw2.
  unfold forbidden in Hkw2. rewrite Hkw2.
  rewrite andb_true_r. apply negb_true_iff.
  destruct (any_keyword_in FACILITY_KEYWORDS (str_lower query)); [|reflexivity].
  cbn [andb] in *. apply negb_false_iff in Hfac. now rewrite (Hflag Hfac).
Qed.

Lemma permissions_of_unknown (level : Z) :
  level < 1 \/ 5 < level -> permissions_of level = scl_1.
Proof.
  intros H. unfold permissions_of, SCL_PERMISSIONS. cbn [lookup_int].
  repeat match goal with
         | |- context [(?k =? level)%Z] =>
             destruct (Z.eqb_spec k level); [lia|]
         end.
  reflexivity.
Qed.

(** X7.  A clearance level outside 1..5 is kept as the actor's level but gets
    the permissions of level 1: the retrieval breadth is 2 and the guard
    approves exactly the queries it approves for a level-1 actor with the
    same facility access. *)
Theorem unrecognised_level_gets_level_1_permissions
    (info info1 : Info.t) (level : Z) (query : string) :
  Info.clearance_level info = Some level ->
  level < 1 \/ 5 < level ->
  Info.clearance_level info1 = Some 1 ->
  get_or (Info.has_facility_access info) false
  = get_or (Info.has_facility_access info1) false ->
  scl_level (init (Some info)) = level
  /\ permissions (init (Some info)) = scl_1
  /\ get_retrieval_k (init (Some info)) = 2
  /\ is_allowed (init (Some info)) query = is_allowed (init (Some info1)) query.
Proof.
  intros Hl Hout H1 Hflag.
  destruct (init_with_level info level Hl) as (Hs & Hp & Hf).
  destruct (init_with_level info1 1 H1) as (_ & Hp1 & Hf1).
  rewrite (permissions_of_unknown level Hout) in Hp.
  split; [exact Hs|]. split; [exact Hp|].
  split; [unfold get_retrieval_k; now rewrite Hp|].
  rewrite !is_allowed_rules. unfold facility_rule_fires.
  rewrite Hp, Hp1, Hf, Hf1, Hflag. reflexivity.
Qed.

(** X8.  Whatever dictionary the guard is built from ([None], an empty one,
    any level), the retrieval breadth is one of 2, 3, 4, 5, 10, hence between
    2 and 10; without a [clearance_level] key the actor is a level-1 actor
    with breadth 2. *)
Theorem retrieval_k_is_always_in_range (employee_info : option Info.t) :
  In (get_retrieval_k (init employee_info)) [2; 3; 4; 5; 10]
  /\ 2 <= get_retrieval_k (init employee_info) <= 10
  /\ (match employee_info with
      | Some info => Info.clearance_level info = None
      | None => True
      end ->
      scl_level (init employee_info) = 1 /\ get_retrieval_k (init employee_info) = 2).
Proof.
  assert (Hin : In (get_retrieval_k (init employee_info)) [2; 3; 4; 5; 10]).
  { unfold get_retrieval_k, init. cbn [permissions].
    generalize (get_or (Info.clearance_level (Info.or_empty employee_info)) 1).
    intros level. unfold permissions_of, SCL_PERMISSIONS. cbn [lookup_int].
    repeat match goal with
           | |- context [(?k =? level)%Z] => destruct (Z.eqb_spec k level)
           end; cbn; tauto. }
  split; [exact Hin|]. split.
  - cbn in Hin. lia.
  - intros Hmissing.
    assert (Hnone : Info.clearance_level (Info.or_empty employee_info) = None).
    { destruct employee_info as [info|]; [|reflexivity].
      unfold Info.or_empty. destruct (Info.truthy info); [exact Hmissing | reflexivity]. }
    unfold get_retrieval_k, init. cbn [scl_level permissions]. rewrite Hnone. cbn.
    split; reflexivity.
Qed.

(** X9.  A reference id is always exactly four decimal digits, whatever
    [hash] returns (a negative value included), and the location denial shows
    it as [Ref: LOC-] followed by the code of the actor's location, names
    "Raccoon City HQ" as the required location and the actor's location as
    the current one. *)
Theorem location_denial_shows_reference_id (self : t) (seed : string) :
  four_digit_code (_generate_ref_id seed)
  /\ is_substring ("Ref: LOC-" ++ _generate_ref_id (location self))
       (_generate_location_denial self)
  /\ is_substring ("restricted to Raccoon City HQ personnel only")
       (_generate_location_denial self)
  /\ is_substring ("Your current assignment at " ++ location self)
       (_generate_location_denial self)
  /\ shows_reference_id (_generate_location_denial self).
Proof.
  assert (Href : is_substring ("Ref: LOC-" ++ _generate_ref_id (location self))
                   (_generate_location_denial self)).
  { unfold _generate_location_denial, Prompts.location_restricted. cbn [append].
    repeat first
      [ solve [ exists EmptyString; eexists; cbn [append]; reflexivity ]
      | apply is_substring_skip_char
      | apply is_substring_skip_app ]. }
  split; [apply ref_id_four_digits|]. split; [exact Href|]. split; [|split].
  - unfold _generate_location_denial, Prompts.location_restricted. cbn [append].
    repeat first
      [ solve [ exists EmptyString; eexists; cbn [append]; reflexivity ]
      | apply is_substring_skip_char
      | apply is_substring_skip_app ].
  - unfold _generate_location_denial, Prompts.location_restricted. cbn [append].
    repeat first
      [ solve [ exists EmptyString; eexists; cbn [append]; rewrite ?app_assoc_str;
                reflexivity ]
      | apply is_substring_skip_char
      | apply is_substring_skip_app ].
  - exists "LOC", (location self). exact Href.
Qed.

End GuardExtras.

(** A level-2 actor without facility access and a level-4 actor with it. *)
Lemma higher_clearance_keeps_access_witness :
  @is_allowed ascii_runtime (Sample.guard 2 false) "Where is the T-Virus lab?" = false
  /\ @is_allowed ascii_runtime (Sample.guard 2 false) "What is a classified memo?" = true
  /\ @is_allowed ascii_runtime (Sample.guard 4 true) "What is a classified memo?" = true.
Proof.
  assert (H2 : @is_allowed ascii_runtime (Sample.guard 2 false) "What is a classified memo?"
               = true) by reflexivity.
  split; [reflexivity|]. split; [exact H2|].
  refine (@higher_clearance_keeps_access ascii_runtime
            (Sample.actor 2 false) (Sample.actor 4 true) 2 4 "What is a classified memo?"
            eq_refl eq_refl _ _ _ _ H2); try lia.
  intros H; discriminate H.
Defined.

(** A level-7 actor at an unlisted location asks about a secret. *)
Lemma unrecognised_level_gets_level_1_permissions_witness :
  SecurityGuardrails.get_retrieval_k (SecurityGuardrails.init (Some Scenario.unknown_level)) = 2
  /\ @is_allowed ascii_runtime (SecurityGuardrails.init (Some Scenario.unknown_level))
       "Is there a secret lab?" = false.
Proof.
  destruct (@unrecognised_level_gets_level_1_permissions ascii_runtime
              Scenario.unknown_level (Sample.actor 1 false) 7 "Is there a secret lab?"
              eq_refl (or_intror (eq_refl : 5 < 7)) eq_refl eq_refl)
    as (_ & _ & Hk & Hallowed).
  split; [exact Hk|]. rewrite Hallowed. reflexivity.
Defined.

(** ** The transmission envelope *)
Section Envelope.

Import OnboardingAssistant.

Lemma rstrip_keep (x : string) (c : ascii) :
  is_space c = false ->
  rstrip (x ++ String c (String "010" EmptyString)) = x ++ String c EmptyString.
Proof.
  intros Hc. induction x as [|a x IH].
  - cbn [append rstrip]. change (is_space "010") with true. cbn iota. now rewrite Hc.
  - cbn [append rstrip]. rewrite IH. destruct x; reflexivity.
Qed.

Lemma strip_envelope (before response after : string) :
  strip (String "010"
           (START_MARKER ++ before ++ response ++ after ++ END_MARKER
            ++ String "010" EmptyString))
  = START_MARKER ++ before ++ response ++ after ++ END_MARKER.
Proof.
  replace (START_MARKER ++ before ++ response ++ after ++ END_MARKER
           ++ String "010" EmptyString)
    with ((START_MARKER ++ before ++ response ++ after ++ "**TRANSMISSION END*")
          ++ String "*" (String "010" EmptyString))
    by (rewrite !app_assoc_str; reflexivity).
  unfold strip. cbn [lstrip]. change (is_space "010") with true. cbn iota.
  unfold START_MARKER at 1. cbn [append lstrip]. change (is_space "*") with false. cbn iota.
  change (String "*" (String "*" (String "T" (String "R" (String "A" (String "N"
           (String "S" (String "M" (String "I" (String "S" (String "S" (String "I"
           (String "O" (String "N" (String " " (String "S" (String "T" (String "A"
           (String "R" (String "T" (String "*" (String "*"
             ((before ++ response ++ after ++ "**TRANSMISSION END*")
              ++ String "*" (String "010" EmptyString))))))))))))))))))))))))
    with ((START_MARKER ++ before ++ response ++ after ++ "**TRANSMISSION END*")
          ++ String "*" (String "010" EmptyString)).
  rewrite rstrip_keep by reflexivity.
  rewrite !app_assoc_str. reflexivity.
Qed.

Lemma split_cons (c : ascii) (s m rest : string) :
  s = m ++ rest -> String c s = String c m ++ rest.
Proof. now intros ->. Qed.

Lemma split_app (x s m rest : string) :
  s = m ++ rest -> x ++ s = (x ++ m) ++ rest.
Proof. intros ->. now rewrite app_assoc_str. Qed.

Lemma split_here (x s a rest : string) :
  s = a ++ rest -> x ++ s = EmptyString ++ x ++ a ++ rest.
Proof. now intros ->. Qed.

Lemma split_end (rest : string) : rest = EmptyString ++ rest.
Proof. reflexivity. Qed.

(** The template of [_format_transmission_response]: the markers around a
    body that holds the response. *)
Lemma transmission_text_shape
    (self : t) (full_name emp_id location_reminder response : string) :
  exists before after,
    transmission_text self full_name emp_id location_reminder response
    = String "010"
        (START_MARKER ++ before ++ response ++ after ++ END_MARKER
         ++ String "010" EmptyString).
Proof.
  unfold transmission_text, START_MARKER, END_MARKER. cbn [append].
  do 2 eexists.
  do 23 (apply (f_equal (String _))).
  repeat lazymatch goal with
         | |- response ++ _ = _ => fail
         | _ => first [ apply split_cons | apply split_app ]
         end.
  apply split_here.
  repeat first [ apply split_end | apply split_cons | apply split_app ].
Qed.

Lemma str_in_prefix (a b : string) : str_in a (a ++ b) = true.
Proof. apply (str_in_complete a EmptyString b). Qed.

(** X11.  [_format_transmission_response] returns a text that already holds
    the start marker unchanged; any other text comes back as the start
    marker, the identity line and headings, the text itself, the compliance
    notice, and the end marker, with nothing before the start marker or after
    the end marker.  The result always holds the start marker, so formatting
    twice is formatting once. *)
Theorem transmission_format_wraps_once (self : t) (response : string) :
  (str_in START_MARKER response = true ->
   _format_transmission_response self response = response)
  /\ (str_in START_MARKER response = false ->
      exists before after,
        _format_transmission_response self response
        = START_MARKER ++ before ++ response ++ after ++ END_MARKER)
  /\ str_in START_MARKER (_format_transmission_response self response) = true
  /\ _format_transmission_response self (_format_transmission_response self response)
     = _format_transmission_response self response.
Proof.
  assert (Hpass : forall r, str_in START_MARKER r = true ->
                            _format_transmission_response self r = r).
  { intros r Hr. unfold _format_transmission_response.
    change "**TRANSMISSION START**" with START_MARKER. now rewrite Hr. }
  assert (Hwrap : str_in START_MARKER response = false ->
            exists before after,
              _format_transmission_response self response
              = START_MARKER ++ before ++ response ++ after ++ END_MARKER).
  { intros Hr. unfold _format_transmission_response.
    change "**TRANSMISSION START**" with START_MARKER. rewrite Hr.
    destruct (transmission_text_shape self
                (get_or (Info.name (employee_information self)) "Unknown" ++ " "
                 ++ get_or (Info.lastname (employee_information self)) EmptyString)
                (short_id (employee_information self))
                (get_or (lookup_str Prompts.LOCATION_REMINDERS
                           (SecurityGuardrails.location (security self))) EmptyString)
                response) as (before & after & ->).
    exists before, after. apply strip_envelope. }
  assert (Hmark : str_in START_MARKER (_format_transmission_response self response) = true).
  { destruct (str_in START_MARKER response) eqn:Hr.
    - now rewrite (Hpass response Hr).
    - destruct (Hwrap eq_refl) as (before & after & ->). apply str_in_prefix. }
  split; [exact (Hpass response)|]. split; [exact Hwrap|]. split; [exact Hmark|].
  exact (Hpass _ Hmark).
Qed.

Lemma take_chars_prefix (n : nat) (s : string) :
  exists rest, s = take_chars n s ++ rest.
Proof.
  revert n; induction s as [|c s IH]; intros n; cbn [take_chars].
  - exists EmptyString. reflexivity.
  - destruct (is_continuation c).
    + destruct (IH n) as [rest Hrest]. exists rest. cbn [append]. now rewrite <- Hrest.
    + destruct n as [|n].
      * exists (String c s). reflexivity.
      * destruct (IH n) as [rest Hrest]. exists rest. cbn [append]. now rewrite <- Hrest.
Qed.

Lemma take_chars_count (n : nat) (s : string) :
  (count_chars (take_chars n s) <= n)%nat.
Proof.
  revert n; induction s as [|c s IH]; intros n; cbn [take_chars].
  - cbn. lia.
  - destruct (is_continuation c) eqn:Hc.
    + cbn [count_chars]. rewrite Hc. apply IH.
    + destruct n as [|n]; [cbn; lia|].
      cbn [count_chars]. rewrite Hc. specialize (IH n). lia.
Qed.

Lemma take_chars_all (n : nat) (s : string) :
  (count_chars s <= n)%nat -> take_chars n s = s.
Proof.
  revert n; induction s as [|c s IH]; intros n; cbn [take_chars count_chars].
  - reflexivity.
  - destruct (is_continuation c) eqn:Hc; intros Hn.
    + now rewrite IH.
    + destruct n as [|n]; [lia|]. rewrite IH by lia. reflexivity.
Qed.

(** X17.  The identifier shown in the asset profile and in the envelope is
    "N/A" when the dictionary has no employee id or an empty one; otherwise it
    is a prefix of the id of at most eight characters, and the whole id when
    the id has at most eight. *)
Theorem short_id_is_a_prefix (emp : Info.t) :
  (Info.employee_id emp = None \/ Info.employee_id emp = Some EmptyString ->
   short_id emp = "N/A")
  /\ (forall id, Info.employee_id emp = Some id -> id <> EmptyString ->
        (exists rest, id = short_id emp ++ rest)
        /\ (count_chars (short_id emp) <= 8)%nat
        /\ ((count_chars id <= 8)%nat -> short_id emp = id)).
Proof.
  unfold short_id. split.
  - intros [-> | ->]; reflexivity.
  - intros id -> Hne. destruct id as [|c id]; [contradiction|].
    split; [apply take_chars_prefix|]. split; [apply take_chars_count|].
    apply take_chars_all.
Qed.

End Envelope.

(** ** Whole turns *)
Section Turns.

Import OnboardingAssistant.
Context {RT : PyRuntime}.

Lemma bind_ok {A B : Type} (c : M A) (k : A -> M B) (w w1 : World) (a : A) :
  c w = (Ok a, w1) -> bind c k w = k a w1.
Proof. unfold bind. now intros ->. Qed.

Lemma bind_raise {A B : Type} (c : M A) (k : A -> M B) (w w1 : World) (e : exn) :
  c w = (Raise e, w1) -> bind c k w = (Raise e, w1).
Proof. unfold bind. now intros ->. Qed.

Lemma add_message_appends (h : ChatMessageHistory.t) (role content : string) (w : World) :
  exists w1 added,
    ChatMessageHistory.add_message h role content w = (Ok tt, w1)
    /\ rows (db w1) = (rows (db w) ++ added)%list
    /\ calls w1 = calls w
    /\ (added = []
        \/ added = [ {| row_session_id := ChatMessageHistory.session_id h;
                        row_role := role; row_content := content |} ]).
Proof.
  unfold ChatMessageHistory.add_message, ChatMessageHistory.sqlite_op.
  destruct (faults (db w)) as [|[|] later]; cbn.
  - do 2 eexists. repeat split. now right.
  - exists {| db := {| rows := rows (db w); faults := later |}; calls := calls w |}, [].
    repeat split; [now rewrite app_nil_r | now left].
  - do 2 eexists. repeat split. now right.
Qed.

Lemma get_langchain_messages_healthy (h : ChatMessageHistory.t) (w : World) :
  storage_healthy 1 w ->
  ChatMessageHistory.get_langchain_messages h w =
    (Ok (ChatMessageHistory.to_langchain
           (stored_messages (ChatMessageHistory.session_id h) (rows (db w)))),
     {| db := {| rows := rows (db w); faults := tl (faults (db w)) |}; calls := calls w |}).
Proof.
  intros Hh. unfold ChatMessageHistory.get_langchain_messages.
  erewrite bind_ok.
  2:{ unfold ChatMessageHistory.get_messages. apply (sqlite_op_healthy _ _ w Hh). }
  reflexivity.
Qed.

Lemma scl_denial_has_marker (required level : Z) (ref_id : string) :
  str_in START_MARKER (Prompts.scl_insufficient required level ref_id) = true.
Proof.
  apply str_in_spec. unfold Prompts.scl_insufficient, START_MARKER. cbn [append].
  apply is_substring_skip_char. exists EmptyString. eexists. cbn [append]. reflexivity.
Qed.

Lemma denial_has_marker (self : SecurityGuardrails.t) (query message : string) :
  SecurityGuardrails.check_query_permission self query = (false, message) ->
  str_in START_MARKER message = true.
Proof.
  rewrite check_query_permission_rules.
  destruct (confidential_rule_fires query); [intros [= <-]; reflexivity|].
  destruct (facility_rule_fires self query); [intros [= <-]; reflexivity|].
  unfold clearance_rule, SecurityGuardrails._generate_scl_denial.
  destruct (SecurityGuardrails.first_keyword_in _ _); [|discriminate].
  intros [= <-]. apply scl_denial_has_marker.
Qed.

Lemma transmission_has_marker (self : t) (response : string) :
  str_in START_MARKER (_format_transmission_response self response) = true.
Proof.
  unfold _format_transmission_response.
  change "**TRANSMISSION START**" with START_MARKER.
  destruct (str_in START_MARKER response) eqn:Hr; [exact Hr|].
  destruct (transmission_text_shape self
              (get_or (Info.name (employee_information self)) "Unknown" ++ " "
               ++ get_or (Info.lastname (employee_information self)) EmptyString)
              (short_id (employee_information self))
              (get_or (lookup_str Prompts.LOCATION_REMINDERS
                         (SecurityGuardrails.location (security self))) EmptyString)
              response) as (before & after & ->).
  rewrite strip_envelope. apply str_in_prefix.
Qed.

(** The two [add_message] calls that end a turn. *)
Lemma persist_turn (h : ChatMessageHistory.t) (query answer : string) (w : World) :
  exists w2 added,
    (ChatMessageHistory.add_message h "human" query ;;
     ChatMessageHistory.add_message h "ai" answer ;;
     ret answer) w = (Ok answer, w2)
    /\ rows (db w2) = (rows (db w) ++ added)%list
    /\ calls w2 = calls w
    /\ (List.length added <= 2)%nat
    /\ Forall (row_of_turn (ChatMessageHistory.session_id h) query answer) added.
Proof.
  destruct (add_message_appends h "human" query w) as (w1 & a1 & E1 & R1 & C1 & A1).
  destruct (add_message_appends h "ai" answer w1) as (w2 & a2 & E2 & R2 & C2 & A2).
  exists w2, (a1 ++ a2)%list.
  split; [rewrite (bind_ok _ _ _ _ _ E1), (bind_ok _ _ _ _ _ E2); reflexivity|].
  split; [rewrite R2, R1; now rewrite app_assoc|].
  split; [congruence|].
  split.
  - rewrite length_app. destruct A1 as [-> | ->]; destruct A2 as [-> | ->]; cbn; lia.
  - apply Forall_app. split.
    + destruct A1 as [-> | ->]; constructor; [|constructor].
      split; [reflexivity | left; split; reflexivity].
    + destruct A2 as [-> | ->]; constructor; [|constructor].
      split; [reflexivity | right; split; reflexivity].
Qed.

(** Every way a turn can go. *)
Lemma get_response_outcome (self : t) (query : string) (w : World) :
  exists answer w' added,
    get_response self query w = (Ok answer, w')
    /\ rows (db w') = (rows (db w) ++ added)%list
    /\ (List.length added <= 2)%nat
    /\ Forall (row_of_turn (ChatMessageHistory.session_id (chat_history self)) query answer)
         added
    /\ str_in START_MARKER answer = true.
Proof.
  unfold get_response, try_except.
  destruct (SecurityGuardrails.check_query_permission (security self) query)
    as [[|] message] eqn:Hcheck; cbn [negb].
  - (* approved *)
    destruct (retrieve_keeps_table self query w) as (text & w1 & Hr & Hdb1).
    rewrite (bind_ok _ _ _ _ _ Hr).
    unfold bind at 1, call at 1.
    destruct (system_prompt self (_format_employee_information self) text)
      as [formatted|e].
    2:{ exists (strip error_response). eexists. exists [].
        split; [reflexivity|]. cbn [db]. rewrite Hdb1, app_nil_r.
        repeat split; [cbn; lia | constructor]. }
    set (w2 := {| db := db w1; calls := _ |}).
    destruct (get_langchain_messages_returns (chat_history self) w2)
      as (history & w3 & Hh & Hrows3).
    rewrite (bind_ok _ _ _ _ _ Hh).
    unfold bind at 1, call at 1.
    destruct (llm self _ history query) as [response|e].
    2:{ exists (strip error_response). eexists. exists [].
        split; [reflexivity|]. cbn [db]. rewrite Hrows3. subst w2. cbn [db].
        rewrite Hdb1, app_nil_r. repeat split; [cbn; lia | constructor]. }
    set (w4 := {| db := db w3; calls := _ |}).
    destruct (persist_turn (chat_history self) query
                (_format_transmission_response self response) w4)
      as (w5 & added & Hp & Hrows & _ & Hlen & Hall).
    exists (_format_transmission_response self response), w5, added.
    rewrite Hp. split; [reflexivity|].
    split; [rewrite Hrows; subst w4 w2; cbn [db]; now rewrite Hrows3, Hdb1|].
    split; [exact Hlen|]. split; [exact Hall|].
    apply transmission_has_marker.
  - (* denied *)
    destruct (persist_turn (chat_history self) query message w)
      as (w2 & added & Hp & Hrows & _ & Hlen & Hall).
    exists message, w2, added. rewrite Hp.
    split; [reflexivity|]. split; [exact Hrows|]. split; [exact Hlen|].
    split; [exact Hall|]. exact (denial_has_marker _ _ _ Hcheck).
Qed.

(** X10.  [get_response] never raises: whatever the guard decides and
    whatever the store, the system prompt, the chain and sqlite do, it returns
    a text, and that text holds the start marker of the transmission
    envelope. *)
Theorem every_turn_returns_an_envelope (self : t) (query : string) (w : World) :
  exists answer w',
    get_response self query w = (Ok answer, w')
    /\ is_substring START_MARKER answer.
Proof.
  destruct (get_response_outcome self query w) as (answer & w' & _ & Hr & _ & _ & _ & Hm).
  exists answer, w'. split; [exact Hr | now apply str_in_spec].
Qed.

(** X13.  A turn only appends to the table: the earlier rows stay in place
    and in order, at most two rows are added, each with this session's id and
    holding either the query as "human" or the returned answer as "ai"; the
    messages of every other session are what they were. *)
Theorem turns_only_append_own_rows (self : t) (query : string) (w : World) :
  exists answer w' added,
    get_response self query w = (Ok answer, w')
    /\ rows (db w') = (rows (db w) ++ added)%list
    /\ (List.length added <= 2)%nat
    /\ Forall (row_of_turn (ChatMessageHistory.session_id (chat_history self)) query answer)
         added
    /\ forall other,
         other <> ChatMessageHistory.session_id (chat_history self) ->
         stored_messages other (rows (db w')) = stored_messages other (rows (db w)).
Proof.
  destruct (get_response_outcome self query w)
    as (answer & w' & added & Hr & Hrows & Hlen & Hall & _).
  exists answer, w', added. repeat (split; [assumption|]).
  intros other Hne. rewrite Hrows, stored_messages_app.
  assert (Hnone : stored_messages other added = []).
  { clear Hrows Hlen. induction Hall as [|r rest [Hsid _] _ IH]; [reflexivity|].
    unfold stored_messages in *. cbn [filter map]. rewrite Hsid.
    destruct (String.eqb_spec (ChatMessageHistory.session_id (chat_history self)) other);
      [congruence | exact IH]. }
  rewrite Hnone. apply app_nil_r.
Qed.

(** The steps of an approved turn whose collaborators succeed. *)
Lemma approved_turn_steps
    (self : t) (query text formatted response : string) (w w1 : World) :
  is_allowed (security self) query = true ->
  _retrieve_policy_information self query w = (Ok text, w1) ->
  system_prompt self (_format_employee_information self) text = Ok formatted ->
  llm self
    (formatted ++ nl ++ SecurityGuardrails.get_dynamic_system_instruction (security self))
    (ChatMessageHistory.to_langchain
       (stored_messages (ChatMessageHistory.session_id (chat_history self)) (rows (db w))))
    query = Ok response ->
  storage_healthy 3 w ->
  exists w',
    get_response self query w = (Ok (_format_transmission_response self response), w')
    /\ rows (db w') =
       (rows (db w)
        ++ turn_rows (ChatMessageHistory.session_id (chat_history self)) query
             (_format_transmission_response self response))%list
    /\ calls w' =
       (calls w1
        ++ [ CallSystemPromptFormat (_format_employee_information self) text;
             CallChain
               (formatted ++ nl
                ++ SecurityGuardrails.get_dynamic_system_instruction (security self))
               (ChatMessageHistory.to_langchain
                  (stored_messages (ChatMessageHistory.session_id (chat_history self))
                     (rows (db w))))
               query ])%list.
Proof.
  intros Hallowed Hr Hsp Hllm Hh.
  destruct (retrieve_keeps_table self query w) as (text' & w1' & Hr' & Hdb1).
  assert (text' = text /\ w1' = w1) as [-> ->] by (split; congruence).
  unfold get_response, try_except. unfold is_allowed in Hallowed.
  destruct (SecurityGuardrails.check_query_permission (security self) query)
    as [allowed message]. cbn [fst] in Hallowed. subst allowed. cbn [negb].
  rewrite (bind_ok _ _ _ _ _ Hr).
  unfold bind at 1, call at 1. rewrite Hsp.
  set (w2 := {| db := db w1; calls := _ |}).
  assert (Hh2 : storage_healthy 3 w2).
  { unfold storage_healthy in *. subst w2. cbn [db]. now rewrite Hdb1. }
  rewrite (bind_ok _ _ _ _ _
             (get_langchain_messages_healthy (chat_history self) w2
                (storage_healthy_first _ _ Hh2))).
  assert (Hrows2 : rows (db w2) = rows (db w)) by (subst w2; cbn [db]; now rewrite Hdb1).
  rewrite Hrows2.
  unfold bind at 1, call at 1. rewrite Hllm.
  set (w4 := {| db := _; calls := _ |}).
  assert (Hh4 : storage_healthy 2 w4).
  { apply (storage_healthy_tl 2 w2 w4 Hh2). reflexivity. }
  destruct (add_message_healthy (chat_history self) "human" query w4
              (storage_healthy_first _ _ Hh4)) as (w5 & Ha5 & Hr5 & Hf5 & Hc5).
  assert (Hh5 : storage_healthy 1 w5) by (apply (storage_healthy_tl 1 w4 w5 Hh4 Hf5)).
  destruct (add_message_healthy (chat_history self) "ai"
              (_format_transmission_response self response) w5 Hh5)
    as (w6 & Ha6 & Hr6 & _ & Hc6).
  exists w6.
  rewrite (bind_ok _ _ _ _ _ Ha5), (bind_ok _ _ _ _ _ Ha6).
  split; [reflexivity|]. split.
  - rewrite Hr6, Hr5. subst w4. cbn [db rows]. unfold turn_rows. now rewrite <- app_assoc.
  - rewrite Hc6, Hc5. subst w4 w2. cbn [calls]. now rewrite <- app_assoc.
Qed.

(** X12.  An approved turn in which the system prompt's [format] and the
    chain succeed, with the storage working: the chain receives the formatted
    prompt followed by a newline and the clearance directive, the messages
    the session held before the turn (the new query is not among them) and the
    query; the answer is the formatted response; [format] and the chain are
    called once each, in this order, after the retrieval; the table gains the
    query and the formatted response, in this order, and the session then
    lists its earlier messages followed by these two. *)
Theorem approved_turn_generates_and_persists
    (self : t) (query text formatted response : string) (w w1 : World) :
  is_allowed (security self) query = true ->
  _retrieve_policy_information self query w = (Ok text, w1) ->
  system_prompt self (_format_employee_information self) text = Ok formatted ->
  llm self
    (formatted ++ nl ++ SecurityGuardrails.get_dynamic_system_instruction (security self))
    (ChatMessageHistory.to_langchain
       (stored_messages (ChatMessageHistory.session_id (chat_history self)) (rows (db w))))
    query = Ok response ->
  storage_healthy 3 w ->
  exists w',
    get_response self query w = (Ok (_format_transmission_response self response), w')
    /\ rows (db w') =
       (rows (db w)
        ++ turn_rows (ChatMessageHistory.session_id (chat_history self)) query
             (_format_transmission_response self response))%list
    /\ calls w' =
       (calls w1
        ++ [ CallSystemPromptFormat (_format_employee_information self) text;
             CallChain
               (formatted ++ nl
                ++ SecurityGuardrails.get_dynamic_system_instruction (security self))
               (ChatMessageHistory.to_langchain
                  (stored_messages (ChatMessageHistory.session_id (chat_history self))
                     (rows (db w))))
               query ])%list
    /\ stored_messages (ChatMessageHistory.session_id (chat_history self)) (rows (db w'))
       = (stored_messages (ChatMessageHistory.session_id (chat_history self)) (rows (db w))
          ++ [ ("human", query); ("ai", _format_transmission_response self response) ])%list.
Proof.
  intros Hallowed Hr Hsp Hllm Hh.
  destruct (approved_turn_steps self query text formatted response w w1
              Hallowed Hr Hsp Hllm Hh) as (w' & Hresp & Hrows & Hcalls).
  exists w'. split; [exact Hresp|]. split; [exact Hrows|]. split; [exact Hcalls|].
  rewrite Hrows, stored_messages_app. f_equal.
  unfold stored_messages, turn_rows. cbn [filter map row_session_id].
  rewrite String.eqb_refl. reflexivity.
Qed.

(** X19.  A retriever that raises does not fail the turn: the system prompt
    is formatted with the "temporarily unavailable" sentinel as its policy
    context, the chain is called, and with the storage working the query and
    the formatted response are stored. *)
Theorem retrieval_failure_does_not_fail_the_turn
    (self : t) (store : VectorStore) (e : exn)
    (query formatted response : string) (w : World) :
  vector_store self = Some store ->
  retriever_invoke store (SecurityGuardrails.get_retrieval_k (security self))
    (retrieval_score_threshold self) query = Raise e ->
  is_allowed (security self) query = true ->
  system_prompt self (_format_employee_information self)
    "Policy database temporarily unavailable. Please try again later." = Ok formatted ->
  llm self
    (formatted ++ nl ++ SecurityGuardrails.get_dynamic_system_instruction (security self))
    (ChatMessageHistory.to_langchain
       (stored_messages (ChatMessageHistory.session_id (chat_history self)) (rows (db w))))
    query = Ok response ->
  storage_healthy 3 w ->
  exists w',
    get_response self query w = (Ok (_format_transmission_response self response), w')
    /\ rows (db w') =
       (rows (db w)
        ++ turn_rows (ChatMessageHistory.session_id (chat_history self)) query
             (_format_transmission_response self response))%list
    /\ In (CallSystemPromptFormat (_format_employee_information self)
             "Policy database temporarily unavailable. Please try again later.")
         (calls w').
Proof.
  intros Hstore Hraise Hallowed Hsp Hllm Hh.
  assert (Hr : _retrieve_policy_information self query w
               = (Ok "Policy database temporarily unavailable. Please try again later.",
                  {| db := db w;
                     calls := (calls w
                               ++ [ CallRetriever query
                                      (SecurityGuardrails.get_retrieval_k (security self))
                                      (retrieval_score_threshold self) ])%list |})).
  { unfold _retrieve_policy_information. rewrite Hstore.
    unfold try_except, bind, call, ret. rewrite Hraise. reflexivity. }
  destruct (approved_turn_steps self query _ formatted response w _
              Hallowed Hr Hsp Hllm Hh) as (w' & Hresp & Hrows & Hcalls).
  exists w'. split; [exact Hresp|]. split; [exact Hrows|].
  rewrite Hcalls. apply in_or_app. right. now left.
Qed.

Lemma join_contains (sep x : string) (xs : list string) :
  In x xs -> is_substring x (join sep xs).
Proof.
  induction xs as [|y ys IH]; [intros []|].
  intros [-> | Hin].
  - destruct ys as [|z zs]; cbn [join].
    + exists EmptyString, EmptyString. cbn [append].
      clear. induction x as [|c x IHx]; cbn; [reflexivity | now rewrite <- IHx].
    + exists EmptyString. eexists. reflexivity.
  - destruct ys as [|z zs]; [destruct Hin|]. cbn [join].
    apply is_substring_skip_app. apply is_substring_skip_app. exact (IH Hin).
Qed.

(** X14.  When the store returns passages, the retriever is asked once, with
    the breadth of the actor's clearance and the configured threshold, and
    the returned context begins with the first passage and holds every
    passage, each as its source label in brackets (or "Unknown" when the
    passage has none), a newline and its text. *)
Theorem retrieval_context_holds_every_passage
    (self : t) (store : VectorStore) (query : string) (w : World)
    (first : Document) (others : list Document) :
  vector_store self = Some store ->
  retriever_invoke store (SecurityGuardrails.get_retrieval_k (security self))
    (retrieval_score_threshold self) query = Ok (first :: others) ->
  exists text w',
    _retrieve_policy_information self query w = (Ok text, w')
    /\ calls w' =
       (calls w
        ++ [ CallRetriever query (SecurityGuardrails.get_retrieval_k (security self))
               (retrieval_score_threshold self) ])%list
    /\ (exists rest, text = format_document first ++ rest)
    /\ forall doc, In doc (first :: others) ->
         is_substring
           ("[Source: " ++ get_or (metadata_source doc) "Unknown" ++ "]" ++ nl
            ++ page_content doc)
           text.
Proof.
  intros Hstore Hdocs. unfold _retrieve_policy_information. rewrite Hstore.
  unfold try_except, bind, call, ret. rewrite Hdocs.
  do 2 eexists. split; [reflexivity|]. split; [reflexivity|]. split.
  - cbn [map join]. destruct (map format_document others).
    + exists EmptyString.
      generalize (format_document first). intros x.
      induction x as [|c x IHx]; cbn; [reflexivity | now rewrite <- IHx].
    + eexists. reflexivity.
  - intros doc Hin.
    apply (join_contains _ (format_document doc)).
    now apply in_map.
Qed.

End Turns.

(** A level-1 actor asks about the dress code; the store has one passage and
    the chain echoes. *)
Lemma approved_turn_generates_and_persists_witness :
  exists w',
    @OnboardingAssistant.get_response ascii_runtime
      (Sample.assistant Sample.echo_llm (Some Sample.handbook_store) 1 false)
      "What is the dress code?" Scenario.used_world
    = (Ok (OnboardingAssistant._format_transmission_response
             (Sample.assistant Sample.echo_llm (Some Sample.handbook_store) 1 false)
             "Acknowledged: What is the dress code?"), w')
    /\ List.length (rows (db w')) = 5%nat
    /\ List.length (calls w') = 3%nat.
Proof.
  destruct (@approved_turn_generates_and_persists ascii_runtime
              (Sample.assistant Sample.echo_llm (Some Sample.handbook_store) 1 false)
              "What is the dress code?"
              "[Source: handbook.pdf]
Badges must be worn at all times."
              _ "Acknowledged: What is the dress code?"
              Scenario.used_world _ eq_refl eq_refl eq_refl eq_refl)
    as (w' & Hresp & Hrows & Hcalls & _).
  { constructor. }
  exists w'. split; [exact Hresp|].
  split; [rewrite Hrows | rewrite Hcalls]; reflexivity.
Defined.

(** The same turn with a store that refuses connections. *)
Lemma retrieval_failure_does_not_fail_the_turn_witness :
  exists w',
    @OnboardingAssistant.get_response ascii_runtime
      (Sample.assistant Sample.echo_llm (Some Sample.broken_store) 1 false)
      "What is the dress code?" Scenario.used_world
    = (Ok (OnboardingAssistant._format_transmission_response
             (Sample.assistant Sample.echo_llm (Some Sample.broken_store) 1 false)
             "Acknowledged: What is the dress code?"), w')
    /\ List.length (rows (db w')) = 5%nat.
Proof.
  destruct (@retrieval_failure_does_not_fail_the_turn ascii_runtime
              (Sample.assistant Sample.echo_llm (Some Sample.broken_store) 1 false)
              Sample.broken_store (Exception "connection refused")
              "What is the dress code?" _ "Acknowledged: What is the dress code?"
              Scenario.used_world eq_refl eq_refl eq_refl eq_refl eq_refl)
    as (w' & Hresp & Hrows & _).
  { constructor. }
  exists w'. split; [exact Hresp|]. rewrite Hrows. reflexivity.
Defined.

Lemma retrieval_context_holds_every_passage_witness :
  exists text w',
    OnboardingAssistant._retrieve_policy_information
      (Sample.assistant Sample.echo_llm (Some Sample.handbook_store) 3 false)
      "What is the dress code?" Sample.fresh_world = (Ok text, w')
    /\ calls w' =
         [ CallRetriever "What is the dress code?" 4
             OnboardingAssistant.default_score_threshold ].
Proof.
  destruct (retrieval_context_holds_every_passage
              (Sample.assistant Sample.echo_llm (Some Sample.handbook_store) 3 false)
              Sample.handbook_store "What is the dress code?" Sample.fresh_world
              _ [] eq_refl eq_refl)
    as (text & w' & Hr & Hcalls & _).
  exists text, w'. split; [exact Hr | exact Hcalls].
Defined.

(** ** Generated employees and the guard *)
Section GeneratedActors.

Import Employees.

Ltac index_cases i Hi :=
  lazymatch type of Hi with
  | (i < O)%nat => exfalso; inversion Hi
  | (i < S _)%nat =>
      destruct i as [|i]; [ | apply <- Nat.succ_lt_mono in Hi; index_cases i Hi ]
  end.

Lemma generate_employee_cases (d : Draws) :
  exists e,
    generate_employee d = Some e
    /\ consistent_with_tables e
    /\ In (location e) (map fst LOCATION_PROTOCOLS)
    /\ employee_id e = uuid4 d.
Proof.
  unfold generate_employee, choice.
  change (List.length (map fst ROLE_DEPARTMENT_MAPPING)) with 10%nat.
  assert (Hi : (position_draw d mod 10 < 10)%nat) by (apply Nat.mod_upper_bound; lia).
  set (i := (position_draw d mod 10)%nat) in *. clearbody i.
  index_cases i Hi; cbn -[Nat.modulo];
    match goal with
    | |- context [nth_error ?xs (_ mod ?n)%nat] =>
        let Hj := fresh "Hj" in
        assert (Hj : (location_draw d mod n < n)%nat) by (apply Nat.mod_upper_bound; lia);
        set (j := (location_draw d mod n)%nat) in *; clearbody j;
        index_cases j Hj
    end;
    cbn; eexists; (split; [reflexivity|]);
    (split; [ unfold consistent_with_tables, get_role_requirements, get_location_protocols;
              cbn; do 2 eexists;
              repeat split; first [ reflexivity | lia | (cbn; tauto) ]
            | split; [cbn; tauto | reflexivity] ]).
Qed.

Lemma generate_loop_consistent (n i : nat) (rng : nat -> Draws) :
  exists employees,
    generate_loop n i rng = Some employees
    /\ Forall consistent_with_tables employees.
Proof.
  revert i; induction n as [|n IH]; intros i; cbn [generate_loop].
  - exists []. split; [reflexivity | constructor].
  - destruct (generate_employee_cases (rng i)) as (e & -> & He & _).
    destruct (IH (S i)) as (es & -> & Hes).
    exists (e :: es). split; [reflexivity | now constructor].
Qed.

(** X15.  Every record of [generate_employee_data] agrees with the two tables:
    its department and clearance level are those of its position in
    [ROLE_DEPARTMENT_MAPPING], its location is one the role allows, its
    location security level and emergency contact are those of the location
    in [LOCATION_PROTOCOLS] (the defaults "UNKNOWN" and "ext. 0-HELP" are never
    used), and its clearance level lies between 1 and 5. *)
Theorem generated_records_agree_with_tables (num_employees : Z) (rng : nat -> Draws) :
  exists employees,
    generate_employee_data num_employees rng = Some employees
    /\ forall e, In e employees ->
         consistent_with_tables e
         /\ location_security_level e <> "UNKNOWN"
         /\ emergency_contact_ext e <> "ext. 0-HELP".
Proof.
  unfold generate_employee_data.
  destruct (generate_loop_consistent (Z.to_nat num_employees) O rng) as (es & Hgen & Hall).
  exists es. split; [exact Hgen|].
  intros e He. rewrite Forall_forall in Hall. pose proof (Hall e He) as Hc.
  split; [exact Hc|].
  destruct Hc as (role & place & _ & _ & _ & _ & Hplace & Hsec & Hcontact & _).
  rewrite Hsec, Hcontact. unfold get_location_protocols in Hplace. cbn in Hplace.
  repeat match type of Hplace with
         | (if ?b then _ else _) = _ => destruct b
         end;
    try discriminate Hplace; injection Hplace as <-; cbn; split; discriminate.
Qed.

Context {RT : PyRuntime}.

Lemma guard_of_generated (e : Employee) :
  SecurityGuardrails.init (Some (to_info e))
  = {| SecurityGuardrails.employee_info := to_info e;
       SecurityGuardrails.scl_level := clearance_level e;
       SecurityGuardrails.location := location e;
       SecurityGuardrails.location_security := location_security_level e;
       SecurityGuardrails.has_facility_access := has_facility_access e;
       SecurityGuardrails.permissions := permissions_of (clearance_level e) |}.
Proof. reflexivity. Qed.

(** X16.  A generated employee who asks about a restricted facility, without
    a confidential term in the query, gets the facility denial exactly when
    the employee is not at "Raccoon City HQ" with a clearance level of at
    least 4; at the headquarters from level 4 on, the outcome is that of the
    clearance-keyword rule alone. *)
Theorem generated_employee_facility_verdict
    (d : Draws) (e : Employee) (query kw : string) :
  generate_employee d = Some e ->
  In kw SecurityGuardrails.FACILITY_KEYWORDS ->
  is_substring kw (str_lower query) ->
  confidential_rule_fires query = false ->
  (SecurityGuardrails.check_query_permission
     (SecurityGuardrails.init (Some (to_info e))) query
   = (false, Prompts.underground_facility)
   <-> ~ (location e = "Raccoon City HQ" /\ 4 <= clearance_level e))
  /\ (location e = "Raccoon City HQ" /\ 4 <= clearance_level e ->
      SecurityGuardrails.check_query_permission
        (SecurityGuardrails.init (Some (to_info e))) query
      = clearance_rule (SecurityGuardrails.init (Some (to_info e))) query).
Proof.
  intros Hgen Hin Hsub Hconf.
  destruct (generate_employee_flag d) as (e' & Hgen' & Hflag).
  assert (e' = e) by congruence. subst e'. unfold flag_matches in Hflag.
  assert (Hany : SecurityGuardrails.any_keyword_in SecurityGuardrails.FACILITY_KEYWORDS
                   (str_lower query) = true).
  { apply any_keyword_in_spec. now exists kw. }
  rewrite check_query_permission_rules, Hconf.
  unfold facility_rule_fires. rewrite Hany, guard_of_generated.
  cbn [SecurityGuardrails.has_facility_access andb].
  destruct (has_facility_access e) eqn:Hacc; cbn [negb].
  - assert (Hhq : location e = "Raccoon City HQ" /\ 4 <= clearance_level e)
      by (now apply Hflag).
    split; [|reflexivity]. split; [|tauto].
    unfold clearance_rule. destruct (SecurityGuardrails.first_keyword_in _ _).
    + intros H. exfalso. apply (f_equal snd) in H. cbn [snd] in H.
      exact (scl_denial_not_facility _ _ _ H).
    + discriminate.
  - split.
    + split; [|reflexivity]. intros _ Hhq. apply Hflag in Hhq. discriminate.
    + intros Hhq. apply Hflag in Hhq. discriminate.
Qed.

(** X18.  For a generated employee no fallback of the assistant is used: the
    guard's permissions are the entry of [SCL_PERMISSIONS] for the employee's
    own level, and the dynamic instruction is the directive of that level
    followed by the reminder of the employee's location, which exists. *)
Theorem generated_employee_needs_no_fallback (d : Draws) (e : Employee) :
  generate_employee d = Some e ->
  exists perms directive reminder,
    lookup_int SCL_PERMISSIONS (clearance_level e) = Some perms
    /\ SecurityGuardrails.permissions (SecurityGuardrails.init (Some (to_info e))) = perms
    /\ lookup_int Prompts.SCL_SYSTEM_INSTRUCTIONS (clearance_level e) = Some directive
    /\ lookup_str Prompts.LOCATION_REMINDERS (location e) = Some reminder
    /\ reminder <> EmptyString
    /\ SecurityGuardrails.get_dynamic_system_instruction
         (SecurityGuardrails.init (Some (to_info e)))
       = directive ++ reminder.
Proof.
  intros Hgen.
  destruct (generate_employee_cases d) as (e' & Hgen' & Hc & Hloc & _).
  assert (e' = e) by congruence. subst e'.
  destruct Hc as (_ & _ & _ & _ & _ & _ & _ & _ & _ & Hrange).
  rewrite guard_of_generated.
  unfold SecurityGuardrails.get_dynamic_system_instruction.
  cbn [SecurityGuardrails.permissions SecurityGuardrails.scl_level
       SecurityGuardrails.location].
  unfold permissions_of.
  cbn [map fst LOCATION_PROTOCOLS In] in Hloc.
  destruct (level_cases (clearance_level e) Hrange) as [-> | [-> | [-> | [-> | ->]]]];
    destruct Hloc as [<- | [<- | [<- | [<- | [<- | []]]]]];
    do 3 eexists; cbn;
    (split; [reflexivity|]); (split; [reflexivity|]); (split; [reflexivity|]);
    (split; [reflexivity|]); (split; [discriminate | reflexivity]).
Qed.

End GeneratedActors.

(** Draws 7 and 1 give a Security Officer at Umbrella Europe (level 4, no
    facility access); draws 7 and 0 give one at the headquarters. *)
Lemma generated_employee_facility_verdict_witness :
  exists e,
    Employees.generate_employee (Sample.draws 7 1) = Some e
    /\ Employees.location e = "Umbrella Europe"
    /\ @SecurityGuardrails.check_query_permission ascii_runtime
         (SecurityGuardrails.init (Some (Employees.to_info e)))
         "Is there a basement?"
       = (false, Prompts.underground_facility).
Proof.
  eexists. split; [reflexivity|]. split; [reflexivity|].
  assert (Hin : In "basement" SecurityGuardrails.FACILITY_KEYWORDS) by (simpl; tauto).
  assert (Hsub : is_substring "basement" (@str_lower ascii_runtime "Is there a basement?")).
  { apply str_in_spec. reflexivity. }
  apply (proj1 (@generated_employee_facility_verdict ascii_runtime
                  (Sample.draws 7 1) _ "Is there a basement?" "basement"
                  eq_refl Hin Hsub eq_refl)).
  intros [Hloc _]. discriminate Hloc.
Defined.

Lemma generated_employee_needs_no_fallback_witness :
  exists e directive reminder,
    Employees.generate_employee (Sample.draws 9 0) = Some e
    /\ Employees.clearance_level e = 5
    /\ SecurityGuardrails.get_dynamic_system_instruction
         (SecurityGuardrails.init (Some (Employees.to_info e)))
       = directive ++ reminder
    /\ reminder <> EmptyString.
Proof.
  destruct (generated_employee_needs_no_fallback (Sample.draws 9 0) _ eq_refl)
    as (perms & directive & reminder & _ & _ & _ & _ & Hne & Hinstr).
  eexists. exists directive, reminder.
  split; [reflexivity|]. split; [reflexivity|]. split; [exact Hinstr | exact Hne].
Defined.

